(** * book_scraper.py: a shallow embedding and its checked properties

    The development follows [src/book_scraper.py].  Python text is a
    [string] whose characters stand for the code points U+0000..U+00FF;
    the browser, the spreadsheet, the status store and the queue are an
    environment that answers every call of the program, either with a
    value or with an instance of [Exception]; the program is written in
    a state and exception monad over that environment, and every call it
    makes is recorded in a history.  Interpreter signals that are not
    instances of [Exception] (a keyboard interrupt, an exit) are not
    part of the model. *)

From Stdlib Require Import String Ascii List Bool Arith ZArith Lia DecimalString.
From stdpp Require Import gmap strings.
Import ListNotations.
Open Scope string_scope.

(** ** Python [str] operations used by the scraper *)

Module PyStr.

(** [str.isspace] of one character, on U+0000..U+00FF: the control
    characters 9-13 and 28-31, the space, NEL and the no-break space. *)
Definition isspace (c : ascii) : bool :=
  let n := nat_of_ascii c in
  (((9 <=? n) && (n <=? 13)) || ((28 <=? n) && (n <=? 32))
   || (n =? 133) || (n =? 160))%nat.

(** [str.isdigit] of one character, on U+0000..U+00FF: the decimal
    digits and the superscripts two, three and one. *)
Definition isdigit (c : ascii) : bool :=
  let n := nat_of_ascii c in
  (((48 <=? n) && (n <=? 57)) || (n =? 178) || (n =? 179) || (n =? 185))%nat.

(** [not s]: the empty text is falsy. *)
Definition falsy (s : string) : bool :=
  match s with
  | EmptyString => true
  | String _ _ => false
  end.

(** [s.split(sep)] for a separator of one character.  The result is
    never empty: a text without separator is its own only field. *)
Fixpoint split (sep : ascii) (s : string) : list string :=
  match s with
  | EmptyString => [EmptyString]
  | String c s' =>
      if Ascii.eqb c sep then EmptyString :: split sep s'
      else match split sep s' with
           | field :: fields => String c field :: fields
           | [] => [String c EmptyString]
           end
  end.

(** Removal of the leading characters that satisfy [p]. *)
Fixpoint lstrip_by (p : ascii -> bool) (s : string) : string :=
  match s with
  | EmptyString => EmptyString
  | String c s' => if p c then lstrip_by p s' else s
  end.

(** Removal of the trailing characters that satisfy [p]. *)
Fixpoint rstrip_by (p : ascii -> bool) (s : string) : string :=
  match s with
  | EmptyString => EmptyString
  | String c s' =>
      let r := rstrip_by p s' in
      if falsy r && p c then EmptyString else String c r
  end.

Definition strip_by (p : ascii -> bool) (s : string) : string :=
  rstrip_by p (lstrip_by p s).

(** [s.strip()] *)
Definition strip (s : string) : string := strip_by isspace s.

(** [s.strip(chars)]: [chars] is a set of characters. *)
Definition strip_chars (chars : string) (s : string) : string :=
  strip_by (fun c => existsb (Ascii.eqb c) (list_ascii_of_string chars)) s.

(** [sub in s] *)
Fixpoint contains (sub s : string) : bool :=
  String.prefix sub s
  || match s with
     | EmptyString => false
     | String _ s' => contains sub s'
     end.

(** [str(n)] for a length. *)
Definition of_nat (n : nat) : string :=
  NilEmpty.string_of_uint (Nat.to_uint n).

End PyStr.

(** ** Exceptions, environment and the monad of the program *)

(** The classes of [Exception] the program names or can meet.  The three
    Selenium classes are those line 14 imports. *)
Inductive exn_class :=
| TimeoutException
| NoSuchElementException
| StaleElementReferenceException
| WebDriverException
| IndexError
| ValueError
| OtherException.

(** An exception instance: its class and the text [str(e)] gives. *)
Record exn := Exn { exn_cls : exn_class; exn_msg : string }.

Inductive result (A : Type) :=
| Ok (a : A)
| Raise (e : exn).
Arguments Ok {A} a.
Arguments Raise {A} e.

(** [(By.XPATH, path)] *)
Inductive locator := XPATH (path : string).

(** The two expected conditions the program waits for. *)
Inductive condition :=
| presence_of_element_located (l : locator)
| element_to_be_clickable (l : locator).

(** A WebElement: the session it lives in and how it was found. *)
Record element := { el_session : nat; el_locator : locator }.

(** Values that travel as [row_index]: an [int] on the typed path, a
    one-character [str] when a queue token is unpacked. *)
Inductive pyval :=
| VInt (z : Z)
| VStr (s : string).

(** Every call that leaves the program, in the order it is made. *)
Inductive event :=
| EvChrome (executable_path : string) (arguments : list string)
| EvSetPageLoadTimeout (session : nat) (seconds : nat)
| EvGet (session : nat) (url : string)
| EvSleep (seconds : nat)
| EvWait (session : nat) (timeout : nat) (c : condition)
| EvText (e : element)
| EvClear (e : element)
| EvSendKeys (e : element) (keys : string)
| EvClick (e : element)
| EvQuit (session : nat)
| EvFirestoreClient
| EvDocSet (collection document status : string)
| EvDocGet (collection document : string)
| EvUpdateCell (row : pyval) (col : Z) (value : string)
| EvAck.

(** What the environment answers to one call: the call returns (with a
    text, read only by the calls that return one) or raises an instance
    of [Exception]. *)
Inductive response :=
| Returns (text : string)
| Raises (e : exn).

Inductive level := INFO | WARNING | ERROR.

(** A document of the collection [isbn_processing_status]. *)
Record StatusRecord := { status : string; timestamp : nat }.

(** The state the program runs in.  [oracle] is the behaviour of the
    environment: its answer to the [n]-th call, which may depend on what
    the call is.  [tick] counts the answers consumed,
    [events] is the history of calls, [sessions] the number of browser
    sessions started, [now] the clock the status store stamps writes
    with, [isbn_processing_status] the collection of status documents. *)
Record World := {
  oracle : nat -> event -> response;
  tick : nat;
  events : list event;
  logs : list (level * string);
  sessions : nat;
  now : nat;
  isbn_processing_status : gmap string StatusRecord
}.

Definition M (A : Type) : Type := World -> result A * World.

Definition ret {A} (a : A) : M A := fun w => (Ok a, w).

Definition raise {A} (e : exn) : M A := fun w => (Raise e, w).

Definition bind {A B} (m : M A) (k : A -> M B) : M B :=
  fun w =>
    match m w with
    | (Ok a, w') => k a w'
    | (Raise e, w') => (Raise e, w')
    end.

Declare Scope py_scope.
Delimit Scope py_scope with py.
Notation "x <- m ;; k" := (bind m (fun x => k))
  (at level 100, m at next level, right associativity) : py_scope.
Notation "m ;; k" := (bind m (fun _ => k))
  (at level 100, right associativity) : py_scope.
Open Scope py_scope.

(** [try: body except ...: handler]; a handler re-raises what its
    clauses do not match. *)
Definition try_except {A} (body : M A) (handler : exn -> M A) : M A :=
  fun w =>
    match body w with
    | (Ok a, w') => (Ok a, w')
    | (Raise e, w') => handler e w'
    end.

(** [try: body finally: final]: [final] runs on every exit of [body];
    an exception of [final] replaces the outcome of [body]. *)
Definition try_finally {A} (body : M A) (final : M unit) : M A :=
  fun w =>
    match body w with
    | (r, w') =>
        match final w' with
        | (Ok _, w'') => (r, w'')
        | (Raise e, w'') => (Raise e, w'')
        end
    end.

(** The state after the call [ev] was made: the call is recorded, took
    one unit of time and consumed one answer. *)
Definition called (ev : event) (w : World) : World :=
  {| oracle := oracle w; tick := S (tick w);
     events := (events w ++ [ev])%list; logs := logs w;
     sessions := sessions w; now := S (now w);
     isbn_processing_status := isbn_processing_status w |}.

(** One call to the environment. *)
Definition extern (ev : event) : M string :=
  fun w =>
    match oracle w (tick w) ev with
    | Returns text => (Ok text, called ev w)
    | Raises e => (Raise e, called ev w)
    end.

(** [time.sleep(seconds)] *)
Definition sleep (seconds : nat) : M unit :=
  fun w =>
    (Ok tt, {| oracle := oracle w; tick := tick w;
               events := (events w ++ [EvSleep seconds])%list; logs := logs w;
               sessions := sessions w; now := now w + seconds;
               isbn_processing_status := isbn_processing_status w |}).

(** [logging.info], [logging.warning], [logging.error] *)
Definition logging (l : level) (msg : string) : M unit :=
  fun w =>
    (Ok tt, {| oracle := oracle w; tick := tick w; events := events w;
               logs := (logs w ++ [(l, msg)])%list; sessions := sessions w;
               now := now w;
               isbn_processing_status := isbn_processing_status w |}).

(** [xs[i]] on a list *)
Definition getitem {A} (xs : list A) (i : nat) : M A :=
  match nth_error xs i with
  | Some x => ret x
  | None => raise (Exn IndexError "list index out of range")
  end.

(** ** Configuration (lines 27-35)

    The path of the driver is the default of line 29, used when the
    environment variable is not set. *)

Definition CHROME_DRIVER_PATH : string :=
  "C:/Users/mecia/OneDrive/Documents/chromedriver.exe".
Definition CONCURRENT_BROWSERS : nat := 3.
Definition DELAY : nat := 10.
Definition PAGE_LOAD_TIMEOUT : nat := 60.

(** ** The Selenium calls *)

(** [webdriver.Chrome(service=..., options=...)]: a new session, numbered
    by the count of sessions started before it. *)
Definition webdriver_Chrome (executable_path : string)
    (arguments : list string) : M nat :=
  extern (EvChrome executable_path arguments) ;;
  fun w =>
    (Ok (sessions w),
     {| oracle := oracle w; tick := tick w; events := events w;
        logs := logs w; sessions := S (sessions w); now := now w;
        isbn_processing_status := isbn_processing_status w |}).

Definition set_page_load_timeout (driver : nat) (seconds : nat) : M unit :=
  extern (EvSetPageLoadTimeout driver seconds) ;; ret tt.

Definition driver_get (driver : nat) (url : string) : M unit :=
  extern (EvGet driver url) ;; ret tt.

(** [WebDriverWait(driver, timeout).until(c)] *)
Definition wait_until (driver : nat) (timeout : nat) (c : condition)
    : M element :=
  extern (EvWait driver timeout c) ;;
  ret {| el_session := driver;
         el_locator := match c with
                       | presence_of_element_located l => l
                       | element_to_be_clickable l => l
                       end |}.

Definition element_text (e : element) : M string := extern (EvText e).

Definition element_clear (e : element) : M unit :=
  extern (EvClear e) ;; ret tt.

Definition element_send_keys (e : element) (keys : string) : M unit :=
  extern (EvSendKeys e keys) ;; ret tt.

Definition element_click (e : element) : M unit :=
  extern (EvClick e) ;; ret tt.

Definition driver_quit (driver : nat) : M unit :=
  extern (EvQuit driver) ;; ret tt.

(** ** The program *)

(** Lines 45-53. *)
Definition init_driver : M nat :=
  let chrome_options :=
    ["--headless"; "--no-sandbox"; "--disable-dev-shm-usage"] in
  driver <- webdriver_Chrome CHROME_DRIVER_PATH chrome_options ;;
  set_page_load_timeout driver PAGE_LOAD_TIMEOUT ;;
  ret driver.

(** The launch of the browser by [init_driver]. *)
Definition chrome_launch : event :=
  EvChrome CHROME_DRIVER_PATH
    ["--headless"; "--no-sandbox"; "--disable-dev-shm-usage"].

(** The sentinels. *)
Definition NA : string := "N/A".
Definition NOT_PROFITABLE : string := "Not profitable".

(** [not price or not price[0].isdigit()] (lines 67 and 116) *)
Definition invalid_value (price : string) : bool :=
  match price with
  | EmptyString => true
  | String c _ => negb (PyStr.isdigit c)
  end.

(** Lines 57-65, up to [price_element.text]: the price text of site A. *)
Definition price_text (driver : nat) (isbn : string) : M string :=
  let url := "https://bookscouter.com/book/" ++ isbn in
  driver_get driver url ;;
  sleep DELAY ;;
  price_element <-
    wait_until driver 10
      (presence_of_element_located
         (XPATH "//*[contains(@class, 'VendorPriceContainer_vobfuvz')]")) ;;
  element_text price_element.

(** Lines 65-71: [.split('$')[1].strip()] and the validity test. *)
Definition parse_price (isbn : string) (text : string) : M string :=
  field <- getitem (PyStr.split "$" text) 1 ;;
  let price := PyStr.strip field in
  if invalid_value price then
    logging WARNING ("Invalid price for ISBN " ++ isbn ++ ": " ++ price) ;;
    ret NA
  else ret price.

(** The [try] block of [fetch_bookscouter_data], lines 57-71. *)
Definition fetch_bookscouter_body (driver : nat) (isbn : string) : M string :=
  text <- price_text driver isbn ;;
  parse_price isbn text.

(** The [except] clauses of [fetch_bookscouter_data], lines 72-80. *)
Definition fetch_bookscouter_handlers (isbn : string) (e : exn) : M string :=
  match exn_cls e with
  | TimeoutException =>
      logging ERROR ("Timeout error for ISBN " ++ isbn) ;; ret NA
  | NoSuchElementException =>
      logging ERROR ("Element not found for ISBN " ++ isbn) ;; ret NA
  | _ =>
      logging ERROR ("Error processing ISBN " ++ isbn ++ ": " ++ exn_msg e) ;;
      ret NA
  end.

(** Lines 55-80. *)
Definition fetch_bookscouter_data (driver : nat) (isbn : string) : M string :=
  try_except (fetch_bookscouter_body driver isbn)
             (fetch_bookscouter_handlers isbn).

(** The double quote of the XPath expressions. *)
Definition dq : string := String (ascii_of_nat 34) EmptyString.

(** [(By.XPATH, '//*[@id=...]')] for the element of identifier [id]. *)
Definition xpath_id (id : string) : locator :=
  XPATH ("//*[@id=" ++ dq ++ id ++ dq ++ "]").

(** The phrase of line 105. *)
Definition NOT_PROFITABLE_PHRASE : string :=
  "This item is not profitable enough to sell.".

(** The inner [try] of [fetch_restricted_inventory_data], lines 101-108:
    [Some v] is [return v], [None] falls through to the profit value. *)
Definition not_profitable_probe (driver : nat) : M (option string) :=
  try_except
    (not_profitable_element <-
       wait_until driver 10
         (presence_of_element_located (xpath_id "model_txt")) ;;
     text <- element_text not_profitable_element ;;
     if PyStr.contains NOT_PROFITABLE_PHRASE text
     then ret (Some NOT_PROFITABLE)
     else ret None)
    (fun e =>
       match exn_cls e with
       | TimeoutException | NoSuchElementException => ret None
       | _ => raise e
       end).

(** Lines 110-113, up to [profit_element.text]: the profit text of
    site B. *)
Definition profit_text (driver : nat) : M string :=
  profit_element <-
    wait_until driver 30
      (presence_of_element_located (xpath_id "profit")) ;;
  element_text profit_element.

(** Lines 114-119: [.strip('$')] and the validity test. *)
Definition parse_profit (text : string) : M string :=
  let profit := PyStr.strip_chars "$" text in
  if invalid_value profit then ret NA else ret profit.

(** Lines 84-99: the search page, the form and the settling delay. *)
Definition search_isbn (driver : nat) (isbn : string) : M unit :=
  let url := "https://www.restrictedinventory.com/#" in
  driver_get driver url ;;
  sleep DELAY ;;
  search_bar <-
    wait_until driver 30
      (presence_of_element_located (xpath_id "restrictiondata-asin")) ;;
  element_clear search_bar ;;
  element_send_keys search_bar isbn ;;
  search_button <-
    wait_until driver 30
      (element_to_be_clickable
         (XPATH ("//*[@id=" ++ dq ++ "find-asin" ++ dq ++ "]/a"))) ;;
  element_click search_button ;;
  sleep DELAY.

(** The outer [try] block of [fetch_restricted_inventory_data],
    lines 84-119. *)
Definition fetch_restricted_inventory_body (driver : nat) (isbn : string)
    : M string :=
  search_isbn driver isbn ;;
  early <- not_profitable_probe driver ;;
  match early with
  | Some v => ret v
  | None =>
      text <- profit_text driver ;;
      parse_profit text
  end.

(** The outer [except] clauses, lines 120-131. *)
Definition fetch_restricted_inventory_handlers (isbn : string) (e : exn)
    : M string :=
  match exn_cls e with
  | TimeoutException =>
      logging ERROR ("Timeout error for ISBN " ++ isbn) ;; ret NA
  | NoSuchElementException =>
      logging ERROR ("Element not found for ISBN " ++ isbn) ;; ret NA
  | StaleElementReferenceException =>
      logging ERROR ("Stale element reference for ISBN " ++ isbn) ;; ret NA
  | _ =>
      logging ERROR ("Error processing ISBN " ++ isbn ++ ": " ++ exn_msg e) ;;
      ret NA
  end.

(** Lines 82-131. *)
Definition fetch_restricted_inventory_data (driver : nat) (isbn : string)
    : M string :=
  try_except (fetch_restricted_inventory_body driver isbn)
             (fetch_restricted_inventory_handlers isbn).

(** The dict [process_isbn] returns. *)
Record ProcessingResult := {
  ISBN : string;
  BookScouter : string;
  RestrictedInventory : string;
  RowIndex : pyval
}.

(** The [try] block of [process_isbn], lines 136-144, for any two
    extraction procedures. *)
Definition extract_both (fetch_a fetch_b : nat -> string -> M string)
    (driver : nat) (isbn : string) (row_index : pyval) : M ProcessingResult :=
  bookscouter_price <- fetch_a driver isbn ;;
  restricted_inventory_profit <- fetch_b driver isbn ;;
  ret {| ISBN := isbn;
         BookScouter := bookscouter_price;
         RestrictedInventory := restricted_inventory_profit;
         RowIndex := row_index |}.

(** Lines 133-146, for any two extraction procedures. *)
Definition process_isbn_with (fetch_a fetch_b : nat -> string -> M string)
    (isbn : string) (row_index : pyval) : M ProcessingResult :=
  driver <- init_driver ;;
  try_finally (extract_both fetch_a fetch_b driver isbn row_index)
              (driver_quit driver).

(** Lines 133-146. *)
Definition process_isbn : string -> pyval -> M ProcessingResult :=
  process_isbn_with fetch_bookscouter_data fetch_restricted_inventory_data.

(** [list(executor.map(f, xs))]: the results in the order of [xs], or
    the exception of the first call, in that order, that raised.  The
    calls are laid out one after the other: each call of [process_isbn]
    works on a session of its own, so the value returned does not depend
    on how the pool interleaves the calls, nor on [max_workers], which
    only bounds how many run at once.  The interleaving itself is not
    represented. *)
Fixpoint executor_map {A B} (f : A -> M B) (xs : list A) : M (list B) :=
  match xs with
  | [] => ret []
  | x :: xs' =>
      y <- f x ;;
      ys <- executor_map f xs' ;;
      ret (y :: ys)
  end.

(** Lines 148-151. *)
Definition process_batch (isbn_data : list (string * pyval))
    : M (list ProcessingResult) :=
  results <- executor_map (fun x => process_isbn (fst x) (snd x)) isbn_data ;;
  ret results.

(** [sheet.update_cell(row, col, value)] *)
Definition update_cell (row : pyval) (col : Z) (value : string) : M unit :=
  extern (EvUpdateCell row col value) ;; ret tt.

Fixpoint update_google_sheet_loop (results : list ProcessingResult) : M unit :=
  match results with
  | [] => ret tt
  | result :: rest =>
      update_cell (RowIndex result) 5 (BookScouter result) ;;
      update_cell (RowIndex result) 6 (RestrictedInventory result) ;;
      update_google_sheet_loop rest
  end.

(** Lines 153-157. *)
Definition update_google_sheet (results : list ProcessingResult) : M unit :=
  update_google_sheet_loop results ;;
  logging INFO ("Updated Google Sheet with "
                ++ PyStr.of_nat (length results) ++ " results").

(** The state after the store has written the document [document]: it
    replaces the document as a whole and stamps it with its clock. *)
Definition stored (document : string) (st : string) (w : World) : World :=
  {| oracle := oracle w; tick := tick w; events := events w;
     logs := logs w; sessions := sessions w; now := now w;
     isbn_processing_status :=
       <[document := {| status := st; timestamp := now w |}]>
         (isbn_processing_status w) |}.

(** [doc_ref.set({'status': status, 'timestamp': SERVER_TIMESTAMP})] *)
Definition doc_set (document : string) (st : string) : M unit :=
  extern (EvDocSet "isbn_processing_status" document st) ;;
  fun w => (Ok tt, stored document st w).

(** Lines 176-182. *)
Definition update_processing_status (isbn : string) (st : string) : M unit :=
  extern EvFirestoreClient ;;
  doc_set isbn st.

(** Lines 184-188. *)
Definition check_processing_status (isbn : string) : M (option StatusRecord) :=
  extern EvFirestoreClient ;;
  extern (EvDocGet "isbn_processing_status" isbn) ;;
  fun w => (Ok (isbn_processing_status w !! isbn), w).

(** An element of the list [process_isbn_batch] iterates over: the pair
    the loop header expects, or the plain text the queue path passes. *)
Inductive entry :=
| EntryPair (isbn : string) (row_index : pyval)
| EntryStr (token : string).

(** [isbn, row_index = x] *)
Definition unpack (x : entry) : M (string * pyval) :=
  match x with
  | EntryPair isbn row_index => ret (isbn, row_index)
  | EntryStr token =>
      match token with
      | String a (String b EmptyString) =>
          ret (String a EmptyString, VStr (String b EmptyString))
      | String _ (String _ (String _ _)) =>
          raise (Exn ValueError "too many values to unpack (expected 2)")
      | String _ EmptyString =>
          raise (Exn ValueError
                   "not enough values to unpack (expected 2, got 1)")
      | EmptyString =>
          raise (Exn ValueError
                   "not enough values to unpack (expected 2, got 0)")
      end
  end.

(** The loop of lines 192-195, with the list built so far. *)
Fixpoint process_isbn_batch_loop (isbn_batch : list entry)
    (results : list ProcessingResult) : M (list ProcessingResult) :=
  match isbn_batch with
  | [] => ret results
  | x :: rest =>
      p <- unpack x ;;
      result <- process_isbn (fst p) (snd p) ;;
      let results := (results ++ [result])%list in
      update_processing_status (fst p) "processed" ;;
      process_isbn_batch_loop rest results
  end.

(** Lines 190-196. *)
Definition process_isbn_batch (isbn_batch : list entry)
    : M (list ProcessingResult) :=
  process_isbn_batch_loop isbn_batch [].

(** A queue message: [data] is the payload as [decode('utf-8')] yields
    it. *)
Record Message := { data : string }.

(** [message.ack()] *)
Definition message_ack : M unit := extern EvAck ;; ret tt.

(** Lines 159-163. *)
Definition process_pubsub_message (message : Message) : M unit :=
  let isbn_batch := map EntryStr (PyStr.split "," (data message)) in
  results <- process_isbn_batch isbn_batch ;;
  update_google_sheet results ;;
  message_ack.

(** ** Outcome and final state of a run *)

Definition outcome {A} (r : result A * World) : result A := fst r.
Definition final {A} (r : result A * World) : World := snd r.

(** ** Notions the statements use *)

(** The part of [s] before the first occurrence of [sep] (all of [s] when
    there is none). *)
Fixpoint before (sep : ascii) (s : string) : string :=
  match s with
  | EmptyString => EmptyString
  | String c s' => if Ascii.eqb c sep then EmptyString
                   else String c (before sep s')
  end.

(** The field between the first occurrence of [sep] in [s] and the next
    one (or the end of [s]); [None] when [sep] does not occur. *)
Fixpoint after_first (sep : ascii) (s : string) : option string :=
  match s with
  | EmptyString => None
  | String c s' => if Ascii.eqb c sep then Some (before sep s')
                   else after_first sep s'
  end.

(** The calls an extraction makes on session [d]: navigation, waits and
    element operations on that session, and sleeps. *)
Definition extraction_event (d : nat) (ev : event) : bool :=
  match ev with
  | EvGet s _ | EvWait s _ _ => Nat.eqb s d
  | EvText e | EvClear e | EvSendKeys e _ | EvClick e =>
      Nat.eqb (el_session e) d
  | EvSleep _ => true
  | _ => false
  end.

(** The calls that start, configure or end a browser session. *)
Definition lifecycle_event (ev : event) : bool :=
  match ev with
  | EvChrome _ _ | EvSetPageLoadTimeout _ _ | EvQuit _ => true
  | _ => false
  end.

(** The calls one run of [process_isbn] can make. *)
Definition browser_event (ev : event) : bool :=
  match ev with
  | EvFirestoreClient | EvDocSet _ _ _ | EvDocGet _ _
  | EvUpdateCell _ _ _ | EvAck => false
  | _ => true
  end.

(** The calls to the status store. *)
Definition store_event (ev : event) : bool :=
  match ev with
  | EvFirestoreClient | EvDocSet _ _ _ | EvDocGet _ _ => true
  | _ => false
  end.

(** The writes of the sheet and the acknowledgement of the message. *)
Definition delivery_event (ev : event) : bool :=
  match ev with
  | EvUpdateCell _ _ _ | EvAck => true
  | _ => false
  end.

(** The environment answers every call of the kind [kind] by returning. *)
Definition reliable (kind : event -> bool) (o : nat -> event -> response)
    : Prop :=
  forall n ev, kind ev = true -> exists text, o n ev = Returns text.

(** [w'] is reached from [w] by calls that all satisfy [q]: the
    behaviour of the environment is the same and the history grew by
    such calls only. *)
Definition reaches (q : event -> bool) (w w' : World) : Prop :=
  oracle w' = oracle w /\
  exists t, events w' = (events w ++ t)%list /\ forallb q t = true.

(** Every run of [m] makes only calls that satisfy [q]. *)
Definition emits {A} (q : event -> bool) (m : M A) : Prop :=
  forall w, reaches q w (final (m w)).

(** The calls of one pass of the loop of [process_isbn_batch] for the
    item [isbn]: those of [process_isbn], which start with the launch of
    the browser, then the status write. *)
Definition item_block (isbn : string) (block : list event) : Prop :=
  exists path args d t,
    block = (EvChrome path args :: t
             ++ [EvQuit d; EvFirestoreClient;
                 EvDocSet "isbn_processing_status" isbn "processed"])%list
    /\ forallb browser_event t = true.

(** What [isbn, row_index = x] binds, when it binds: the two components
    of a pair, the two characters of a text of length two. *)
Definition unpacked (x : entry) : option (string * pyval) :=
  match x with
  | EntryPair isbn row_index => Some (isbn, row_index)
  | EntryStr (String a (String b EmptyString)) =>
      Some (String a EmptyString, VStr (String b EmptyString))
  | EntryStr _ => None
  end.

(** The block of calls of the entry [x], which unpacks. *)
Definition entry_block (x : entry) (block : list event) : Prop :=
  exists p, unpacked x = Some p /\ item_block (fst p) block.

(** The writes of status documents. *)
Definition status_write (ev : event) : bool :=
  match ev with
  | EvDocSet _ _ _ => true
  | _ => false
  end.

(** The calls of the loop of [process_isbn_batch]. *)
Definition batch_event (ev : event) : bool :=
  browser_event ev || store_event ev.



#[global] Instance pyval_eq_dec : EqDecision pyval.
Proof. solve_decision. Defined.

(** ** Environments for the examples *)

(** The answer of a call that returns nothing of interest. *)
Definition silent : response := Returns EmptyString.

(** The environment that gives the listed answers in turn, whatever the
    calls are, and lets every later call return. *)
Definition script (answers : list response) : nat -> event -> response :=
  fun n _ => nth n answers silent.

(** The state at the start of a run against the behaviour [o]. *)
Definition start (o : nat -> event -> response) : World :=
  {| oracle := o; tick := 0; events := []; logs := []; sessions := 0;
     now := 0; isbn_processing_status := ∅ |}.

(** The scenario of two items, the first on session 0 and the second on
    session 1.  For the first, the wait for the price of site A times out
    and the search bar of site B is missing; for the second, site A shows
    [$12.50] and site B the indicator of unprofitable items.  Every other
    call returns: the sessions and the status store work. *)
Definition two_items : World :=
  start (fun _ ev =>
           match ev with
           | EvWait 0 10 _ => Raises (Exn TimeoutException "Message: ")
           | EvWait 0 30 _ => Raises (Exn NoSuchElementException "Message: ")
           | EvText {| el_session := 1; el_locator := XPATH path |} =>
               if String.eqb path
                    "//*[contains(@class, 'VendorPriceContainer_vobfuvz')]"
               then Returns "$12.50"
               else Returns "This item is not profitable enough to sell."
           | _ => silent
           end).

(** A payload whose first token has length two. *)
Definition short_token_first : Message := {| data := "ab,9780131103627" |}.

(** A payload of one ISBN of thirteen digits. *)
Definition one_isbn : Message := {| data := "9780131103627" |}.

(** An extraction procedure that raises. *)
Definition failing_extraction : nat -> string -> M string :=
  fun _ _ => raise (Exn OtherException "unexpected").

(** The page of site A shows two prices. *)
Definition two_prices : World :=
  start (script [silent; silent; Returns "$12.50 $9.99"]).

(** Site A shows a price that is not a number; on site B the indicator
    of unprofitable items never appears and the profit is negative. *)
Definition invalid_texts : World :=
  start (script [silent; silent; Returns "Best offer: $TBD";
                 silent; silent; silent; silent; silent; silent;
                 Raises (Exn TimeoutException "Message: ");
                 silent; Returns "-$3.20"]).

(** Site B shows the indicator of unprofitable items, and a profit. *)
Definition unprofitable : World :=
  start (script [silent; silent; silent; silent; silent; silent; silent;
                 Returns "This item is not profitable enough to sell.";
                 silent; Returns "$4.10"]).

(** ** Notions of the further properties *)

(** Every run of [m] leaves a state related to the one it started in. *)
Definition preserves {A} (R : World -> World -> Prop) (m : M A) : Prop :=
  forall w, R w (final (m w)).

(** The collection of status documents is the same. *)
Definition same_store (w w' : World) : Prop :=
  isbn_processing_status w' = isbn_processing_status w.

(** [sep.join(fields)] *)
Fixpoint join_with (sep : ascii) (fields : list string) : string :=
  match fields with
  | [] => EmptyString
  | field :: rest =>
      match rest with
      | [] => field
      | _ :: _ => field ++ String sep (join_with sep rest)
      end
  end.

(** The number of occurrences of [c] in [s]. *)
Fixpoint occurrences (c : ascii) (s : string) : nat :=
  match s with
  | EmptyString => 0
  | String a s' => (if Ascii.eqb a c then 1 else 0) + occurrences c s'
  end.

(** The calls made of [calls], attempted in this order from the answer
    number [t] of the environment [o], by a run that stops at the first
    call that raises.  [time.sleep] consumes no answer and does not
    raise. *)
Fixpoint calls_until_raise (o : nat -> event -> response) (t : nat)
    (calls : list event) : list event :=
  match calls with
  | [] => []
  | ev :: rest =>
      match ev with
      | EvSleep _ => ev :: calls_until_raise o t rest
      | _ =>
          match o t ev with
          | Returns _ => ev :: calls_until_raise o (S t) rest
          | Raises _ => [ev]
          end
      end
  end.

(** The exception of the first of these calls that raises, when one
    does. *)
Fixpoint first_raise (o : nat -> event -> response) (t : nat)
    (calls : list event) : option exn :=
  match calls with
  | [] => None
  | ev :: rest =>
      match ev with
      | EvSleep _ => first_raise o t rest
      | _ =>
          match o t ev with
          | Returns _ => first_raise o (S t) rest
          | Raises e => Some e
          end
      end
  end.

(** What a value returned for site A is, when it is not ['N/A']: it
    begins with a digit, holds no currency marker and is trimmed. *)
Definition clean_price (v : string) : Prop :=
  invalid_value v = false
  /\ PyStr.contains "$" v = false
  /\ PyStr.strip v = v.

(** What a value returned for site B is, when it is neither ['N/A'] nor
    ['Not profitable']: it begins with a digit and neither begins nor
    ends with a currency marker. *)
Definition clean_profit (v : string) : Prop :=
  invalid_value v = false /\ PyStr.strip_chars "$" v = v.

(** The calls of the site-A extraction, in order. *)
Definition bookscouter_calls (driver : nat) (isbn : string) : list event :=
  let price :=
    XPATH "//*[contains(@class, 'VendorPriceContainer_vobfuvz')]" in
  [EvGet driver ("https://bookscouter.com/book/" ++ isbn);
   EvSleep DELAY;
   EvWait driver 10 (presence_of_element_located price);
   EvText {| el_session := driver; el_locator := price |}].

(** The two cells [update_google_sheet] writes for each result, in the
    order of the results. *)
Definition sheet_writes (results : list ProcessingResult) : list event :=
  flat_map (fun r => [EvUpdateCell (RowIndex r) 5 (BookScouter r);
                      EvUpdateCell (RowIndex r) 6 (RestrictedInventory r)])
    results.

(** The writes of cells of the sheet. *)
Definition cell_write (ev : event) : bool :=
  match ev with
  | EvUpdateCell _ _ _ => true
  | _ => false
  end.

(** The acknowledgement of the message. *)
Definition ack_event (ev : event) : bool :=
  match ev with
  | EvAck => true
  | _ => false
  end.

(** The classes the inner handler of line 107 absorbs. *)
Definition absorbed_by_probe (e : exn) : bool :=
  match exn_cls e with
  | TimeoutException | NoSuchElementException => true
  | _ => false
  end.

(** The wait of the probe for the indicator of unprofitable items, and
    the element it yields. *)
Definition indicator_wait (driver : nat) : event :=
  EvWait driver 10 (presence_of_element_located (xpath_id "model_txt")).

Definition indicator (driver : nat) : element :=
  {| el_session := driver; el_locator := xpath_id "model_txt" |}.

(** Lines 110-119 under the handlers of lines 120-131: what is left of
    the site-B extraction once the probe has fallen through. *)
Definition profit_part (driver : nat) (isbn : string) : M string :=
  try_except (text <- profit_text driver ;; parse_profit text)
             (fetch_restricted_inventory_handlers isbn).

(** The indicator is absent: the wait of the probe times out. *)
Definition profitable : World :=
  start (script [silent; silent; silent; silent; silent; silent;
                 Raises (Exn TimeoutException "Message: ");
                 silent; Returns "$12.50"]).

(** The indicator goes stale while its text is read. *)
Definition stale_indicator : World :=
  start (script [silent; silent; silent; silent; silent; silent; silent;
                 Raises (Exn StaleElementReferenceException "Message: ");
                 silent; Returns "$12.50"]).

(** The browser cannot be launched. *)
Definition no_browser : World :=
  start (script [Raises (Exn WebDriverException
                           "Message: session not created")]).

(** The browser is launched, but setting its page-load timeout fails. *)
Definition no_page_load_timeout : World :=
  start (script [silent;
                 Raises (Exn WebDriverException "Message: disconnected")]).

(** Everything works but [quit], the last call of the item. *)
Definition quit_fails : World :=
  start (fun _ ev =>
           match ev with
           | EvQuit _ => Raises (Exn WebDriverException
                                   "Message: invalid session id")
           | EvText _ => Returns "$7.25"
           | _ => silent
           end).

(** The sheet refuses the third write. *)
Definition third_write_fails : World :=
  start (script [silent; silent;
                 Raises (Exn OtherException "APIError: quota exceeded")]).

(** Two results to write. *)
Definition two_results : list ProcessingResult :=
  [{| ISBN := "111"; BookScouter := "N/A"; RestrictedInventory := "N/A";
      RowIndex := VInt 2 |};
   {| ISBN := "222"; BookScouter := "12.50";
      RestrictedInventory := "Not profitable"; RowIndex := VInt 3 |}].

(** The documents of the ISBNs [isbns] hold the status [processed] in
    [m'], and the other documents of [m'] are those of [m]. *)
Definition marked_processed (isbns : list string)
    (m m' : gmap string StatusRecord) : Prop :=
  (forall k, In k isbns -> status <$> (m' !! k) = Some "processed")
  /\ (forall k, ~ In k isbns -> m' !! k = m !! k).

(** The cell writes the queue path can make: the row is a text of one
    character, the column is 5 or 6.  Calls that are not cell writes
    pass. *)
Definition queue_cell (ev : event) : bool :=
  match ev with
  | EvUpdateCell (VStr s) col _ =>
      Nat.eqb (String.length s) 1 && (Z.eqb col 5 || Z.eqb col 6)
  | EvUpdateCell (VInt _) _ _ => false
  | _ => true
  end.

(** A payload of three tokens of length two. *)
Definition short_tokens : Message := {| data := "a2,b3,c4" |}.

(** The line [update_google_sheet] logs (line 157). *)
Definition sheet_log (results : list ProcessingResult) : level * string :=
  (INFO, "Updated Google Sheet with " ++ PyStr.of_nat (length results)
         ++ " results").

(** * Properties *)

(** ** The monad *)

Lemma bind_ok {A B} (m : M A) (k : A -> M B) w a w' :
  m w = (Ok a, w') -> bind m k w = k a w'.
Proof. intros E. unfold bind. now rewrite E. Qed.

Lemma bind_raise {A B} (m : M A) (k : A -> M B) w e w' :
  m w = (Raise e, w') -> bind m k w = (Raise e, w').
Proof. intros E. unfold bind. now rewrite E. Qed.

Lemma reaches_refl q w : reaches q w w.
Proof.
  split; [reflexivity|]. exists []. split; [|reflexivity].
  symmetry. apply app_nil_r.
Qed.

Lemma reaches_trans q w1 w2 w3 :
  reaches q w1 w2 -> reaches q w2 w3 -> reaches q w1 w3.
Proof.
  intros [O1 (t1 & E1 & F1)] [O2 (t2 & E2 & F2)]. split.
  - congruence.
  - exists (t1 ++ t2)%list. split.
    + rewrite E2, E1. symmetry. apply app_assoc.
    + rewrite forallb_app, F1, F2. reflexivity.
Qed.

Lemma reaches_weaken (q q' : event -> bool) w w' :
  (forall ev, q ev = true -> q' ev = true) ->
  reaches q w w' -> reaches q' w w'.
Proof.
  intros Hq [O (t & E & F)]. split; [exact O|]. exists t. split; [exact E|].
  rewrite forallb_forall in *. auto.
Qed.

Lemma emits_weaken {A} (q q' : event -> bool) (m : M A) :
  (forall ev, q ev = true -> q' ev = true) -> emits q m -> emits q' m.
Proof. intros Hq Hm w. eapply reaches_weaken; eauto. Qed.

Lemma emits_ret {A} q (a : A) : emits q (ret a).
Proof. intros w. apply reaches_refl. Qed.

Lemma emits_raise {A} q e : emits q (@raise A e).
Proof. intros w. apply reaches_refl. Qed.

Lemma emits_bind {A B} q (m : M A) (k : A -> M B) :
  emits q m -> (forall a, emits q (k a)) -> emits q (bind m k).
Proof.
  intros Hm Hk w. specialize (Hm w). unfold bind, final in *.
  destruct (m w) as [[a|e] w1]; simpl in *.
  - eapply reaches_trans; [exact Hm|]. apply Hk.
  - exact Hm.
Qed.

Lemma emits_try_except {A} q (body : M A) handler :
  emits q body -> (forall e, emits q (handler e)) ->
  emits q (try_except body handler).
Proof.
  intros Hm Hk w. specialize (Hm w). unfold try_except, final in *.
  destruct (body w) as [[a|e] w1]; simpl in *.
  - exact Hm.
  - eapply reaches_trans; [exact Hm|]. apply Hk.
Qed.

Lemma emits_try_finally {A} q (body : M A) fin :
  emits q body -> emits q fin -> emits q (try_finally body fin).
Proof.
  intros Hm Hf w. specialize (Hm w). unfold try_finally, final in *.
  destruct (body w) as [r w1]; simpl in *. specialize (Hf w1).
  destruct (fin w1) as [[u|e] w2]; simpl in *;
    eapply reaches_trans; eauto.
Qed.

Lemma emits_extern q ev : q ev = true -> emits q (extern ev).
Proof.
  intros Hq w. unfold extern, final.
  destruct (oracle w (tick w) ev); simpl; (split; [reflexivity|]);
    exists [ev]; simpl; rewrite Hq; auto.
Qed.

Lemma emits_sleep q n : q (EvSleep n) = true -> emits q (sleep n).
Proof.
  intros Hq w. split; [reflexivity|]. exists [EvSleep n]. simpl.
  rewrite Hq. auto.
Qed.

Lemma emits_logging q l msg : emits q (logging l msg).
Proof. intros w. split; [reflexivity|]. exists []. simpl. split; [|reflexivity]. symmetry; apply app_nil_r. Qed.

Lemma emits_getitem {A} q (xs : list A) i : emits q (getitem xs i).
Proof. unfold getitem. destruct (nth_error xs i); [apply emits_ret|apply emits_raise]. Qed.

(** ** The extractions are fail-soft *)

Lemma bookscouter_handlers_na isbn e w :
  exists msg,
    fetch_bookscouter_handlers isbn e w = (Ok NA, final (logging ERROR msg w)).
Proof.
  unfold fetch_bookscouter_handlers.
  destruct (exn_cls e); eexists; reflexivity.
Qed.

Lemma restricted_inventory_handlers_na isbn e w :
  exists msg,
    fetch_restricted_inventory_handlers isbn e w
    = (Ok NA, final (logging ERROR msg w)).
Proof.
  unfold fetch_restricted_inventory_handlers.
  destruct (exn_cls e); eexists; reflexivity.
Qed.

Lemma fetch_bookscouter_data_returns driver isbn w :
  exists v w', fetch_bookscouter_data driver isbn w = (Ok v, w').
Proof.
  unfold fetch_bookscouter_data, try_except.
  destruct (fetch_bookscouter_body driver isbn w) as [[v|e] w1]; eauto.
  destruct (bookscouter_handlers_na isbn e w1) as [msg ->]. eauto.
Qed.

Lemma fetch_restricted_inventory_data_returns driver isbn w :
  exists v w', fetch_restricted_inventory_data driver isbn w = (Ok v, w').
Proof.
  unfold fetch_restricted_inventory_data, try_except.
  destruct (fetch_restricted_inventory_body driver isbn w) as [[v|e] w1];
    eauto.
  destruct (restricted_inventory_handlers_na isbn e w1) as [msg ->]. eauto.
Qed.


(** A wait that times out on site A. *)
Example timeout_is_unavailable :
  let r := fetch_bookscouter_data 0 "9780131103627"
             (start (script [silent;
                             Raises (Exn TimeoutException "Message: ")])) in
  outcome r = Ok "N/A"
  /\ logs (final r) = [(ERROR, "Timeout error for ISBN 9780131103627")].
Proof. split; reflexivity. Qed.

(** A price text without currency marker: [split('$')[1]] is out of
    range. *)
Example missing_marker_is_unavailable :
  let r := fetch_bookscouter_data 0 "9780131103627"
             (start (script [silent; silent; Returns "No offers"])) in
  outcome r = Ok "N/A"
  /\ logs (final r)
     = [(ERROR, "Error processing ISBN 9780131103627: list index out of range")].
Proof. split; reflexivity. Qed.

(** A stale reference when the profit text of site B is read. *)
Example stale_reference_is_unavailable :
  let r := fetch_restricted_inventory_data 0 "9780131103627"
             (start (script [silent; silent; silent; silent; silent; silent;
                             Raises (Exn NoSuchElementException "Message: ");
                             silent;
                             Raises (Exn StaleElementReferenceException
                                       "Message: ")])) in
  outcome r = Ok "N/A"
  /\ logs (final r)
     = [(ERROR, "Stale element reference for ISBN 9780131103627")].
Proof. split; reflexivity. Qed.

(** The timeout of the probe for the indicator of unprofitable items is
    absorbed by the inner handler (line 107): the extraction goes on and
    returns the profit. *)
Example absent_indicator_falls_through :
  outcome (fetch_restricted_inventory_data 0 "9780131103627"
             (start (script [silent; silent; silent; silent; silent; silent;
                             Raises (Exn TimeoutException "Message: ");
                             silent; Returns "$12.50"])))
  = Ok "12.50".
Proof. reflexivity. Qed.

(** ** Text operations *)

Lemma contains_char_cons sep c s :
  PyStr.contains (String sep EmptyString) (String c s)
  = Ascii.eqb c sep || PyStr.contains (String sep EmptyString) s.
Proof.
  simpl. destruct (ascii_dec sep c) as [->|Hne].
  - rewrite Ascii.eqb_refl. now destruct s.
  - destruct (Ascii.eqb_spec c sep) as [->|_]; [contradiction|reflexivity].
Qed.

Lemma split_head sep s : exists fields, PyStr.split sep s = before sep s :: fields.
Proof.
  induction s as [|c s [fields IH]]; simpl.
  - eauto.
  - destruct (Ascii.eqb c sep); [eauto|]. rewrite IH. eauto.
Qed.

Lemma split_second sep s :
  nth_error (PyStr.split sep s) 1 = after_first sep s.
Proof.
  induction s as [|c s IH]; simpl; [reflexivity|].
  destruct (Ascii.eqb c sep).
  - destruct (split_head sep s) as [fields ->]. reflexivity.
  - destruct (split_head sep s) as [fields E]. rewrite E in *. exact IH.
Qed.

Lemma after_first_app sep pre post :
  PyStr.contains (String sep EmptyString) pre = false ->
  after_first sep (pre ++ String sep post) = Some (before sep post).
Proof.
  induction pre as [|c pre IH]; simpl String.append; intros H.
  - simpl. now rewrite Ascii.eqb_refl.
  - rewrite contains_char_cons in H. apply orb_false_iff in H as [Hc Hp].
    simpl. rewrite Hc. auto.
Qed.

Lemma after_first_none sep s :
  PyStr.contains (String sep EmptyString) s = false ->
  after_first sep s = None.
Proof.
  induction s as [|c s IH]; intros H; [reflexivity|].
  rewrite contains_char_cons in H. apply orb_false_iff in H as [Hc Hp].
  simpl. rewrite Hc. auto.
Qed.

Lemma before_without sep s :
  PyStr.contains (String sep EmptyString) s = false -> before sep s = s.
Proof.
  induction s as [|c s IH]; intros H; [reflexivity|].
  rewrite contains_char_cons in H. apply orb_false_iff in H as [Hc Hp].
  simpl. rewrite Hc, IH; auto.
Qed.

Lemma isdigit_not_isspace c : PyStr.isdigit c = true -> PyStr.isspace c = false.
Proof.
  destruct c as [b0 b1 b2 b3 b4 b5 b6 b7].
  destruct b0, b1, b2, b3, b4, b5, b6, b7; vm_compute; congruence.
Qed.

Lemma isdigit_not_dollar c : PyStr.isdigit c = true -> Ascii.eqb c "$" = false.
Proof.
  destruct (Ascii.eqb_spec c "$") as [->|]; [|reflexivity].
  vm_compute. congruence.
Qed.

Lemma strip_by_head p c s :
  p c = false ->
  PyStr.strip_by p (String c s) = String c (PyStr.rstrip_by p s).
Proof.
  intros Hc. unfold PyStr.strip_by. simpl. rewrite Hc. simpl. rewrite Hc.
  now rewrite andb_false_r.
Qed.

(** A field that begins with a digit passes the validity test once
    trimmed. *)
Lemma digit_field_valid c s :
  PyStr.isdigit c = true -> invalid_value (PyStr.strip (String c s)) = false.
Proof.
  intros Hd. unfold PyStr.strip.
  rewrite strip_by_head by now apply isdigit_not_isspace.
  simpl. now rewrite Hd.
Qed.

(** ** Parsing of the price and profit texts *)

Lemma parse_price_field isbn text w :
  parse_price isbn text w
  = match after_first "$" text with
    | None => (Raise (Exn IndexError "list index out of range"), w)
    | Some field =>
        if invalid_value (PyStr.strip field)
        then (Ok NA,
              final (logging WARNING
                       ("Invalid price for ISBN " ++ isbn ++ ": "
                        ++ PyStr.strip field) w))
        else (Ok (PyStr.strip field), w)
    end.
Proof.
  unfold parse_price, getitem. rewrite split_second.
  destruct (after_first "$" text) as [field|]; [|reflexivity].
  unfold bind, ret. simpl.
  destruct (invalid_value (PyStr.strip field)); reflexivity.
Qed.

Lemma fetch_bookscouter_data_parses driver isbn w text w1 :
  price_text driver isbn w = (Ok text, w1) ->
  fetch_bookscouter_data driver isbn w
  = try_except (parse_price isbn text) (fetch_bookscouter_handlers isbn) w1.
Proof.
  intros H. unfold fetch_bookscouter_data, fetch_bookscouter_body, try_except.
  now rewrite (bind_ok _ _ _ _ _ H).
Qed.

(** C3, as amended.  When the first currency marker of the price text is
    followed by a digit, the site-A extraction returns the text between
    that marker and the next marker (or the end of the text when there is
    no other marker), trimmed of whitespace; with a single marker in the
    text this is all the text after the marker, trimmed. *)
Theorem price_after_first_marker (driver : nat) (isbn : string)
    (w w1 : World) (text pre post : string) (c : ascii) (rest : string) :
  price_text driver isbn w = (Ok text, w1) ->
  text = pre ++ "$" ++ post ->
  PyStr.contains "$" pre = false ->
  post = String c rest ->
  PyStr.isdigit c = true ->
  fetch_bookscouter_data driver isbn w
  = (Ok (PyStr.strip (before "$" post)), w1)
  /\ (PyStr.contains "$" post = false ->
      fetch_bookscouter_data driver isbn w = (Ok (PyStr.strip post), w1)).
Proof.
  intros Hread -> Hpre -> Hd.
  assert (E : fetch_bookscouter_data driver isbn w
              = (Ok (PyStr.strip (before "$" (String c rest))), w1)).
  { rewrite (fetch_bookscouter_data_parses _ _ _ _ _ Hread).
    unfold try_except. rewrite parse_price_field.
    change (pre ++ "$" ++ String c rest)
      with (pre ++ String "$" (String c rest)).
    rewrite after_first_app by exact Hpre.
    assert (B : before "$" (String c rest) = String c (before "$" rest)).
    { simpl. now rewrite (isdigit_not_dollar c Hd). }
    rewrite B. now rewrite digit_field_valid by exact Hd. }
  split; [exact E|]. intros Hpost. rewrite E.
  now rewrite (before_without _ _ Hpost).
Qed.

Lemma price_after_first_marker_witness :
  price_text 0 "9780131103627" two_prices
  = (Ok "$12.50 $9.99", final (price_text 0 "9780131103627" two_prices))
  /\ PyStr.contains "$" EmptyString = false
  /\ PyStr.isdigit "1" = true
  /\ fetch_bookscouter_data 0 "9780131103627" two_prices
     = (Ok "12.50", final (price_text 0 "9780131103627" two_prices)).
Proof.
  split; [reflexivity|]. split; [reflexivity|]. split; [reflexivity|].
  refine (proj1 (price_after_first_marker 0 "9780131103627" two_prices
                   (final (price_text 0 "9780131103627" two_prices))
                   "$12.50 $9.99" EmptyString "12.50 $9.99" "1" "2.50 $9.99"
                   _ _ _ _ _)); reflexivity.
Defined.

(** C3, as stated, fails: the text [$12.50 $9.99] contains a marker
    followed by a digit, the text after that marker is [12.50 $9.99], and
    the extraction returns [12.50], the text between the two markers. *)
Lemma price_after_marker_counterexample :
  ~ (forall (driver : nat) (isbn : string) (w w1 : World)
            (text pre post : string) (c : ascii) (rest : string),
        price_text driver isbn w = (Ok text, w1) ->
        text = pre ++ "$" ++ post ->
        post = String c rest ->
        PyStr.isdigit c = true ->
        fetch_bookscouter_data driver isbn w = (Ok (PyStr.strip post), w1)).
Proof.
  intros claim.
  specialize (claim 0 "9780131103627" two_prices
                (final (price_text 0 "9780131103627" two_prices))
                "$12.50 $9.99" EmptyString "12.50 $9.99" "1"%char "2.50 $9.99"
                eq_refl eq_refl eq_refl eq_refl).
  apply (f_equal outcome) in claim. vm_compute in claim. discriminate claim.
Qed.

(** In that text no marker at all is followed by what the extraction
    returns: the text after the second marker is [9.99]. *)
Ltac each_marker H pre :=
  destruct pre as [|? pre]; cbv beta iota delta [String.append] in H;
  [ first [ discriminate H
          | injection H as H; subst; vm_compute; discriminate ]
  | first [ discriminate H
          | injection H as _ H; each_marker H pre ] ].

Example two_prices_no_marker_fits :
  forall pre post,
    "$12.50 $9.99" = pre ++ "$" ++ post ->
    outcome (fetch_bookscouter_data 0 "9780131103627" two_prices)
    <> Ok (PyStr.strip post).
Proof.
  intros pre post H.
  change (outcome (fetch_bookscouter_data 0 "9780131103627" two_prices))
    with (@Ok string "12.50").
  each_marker H pre.
Qed.

Lemma fetch_restricted_inventory_data_parses driver isbn w w1 w2 text w3 :
  search_isbn driver isbn w = (Ok tt, w1) ->
  not_profitable_probe driver w1 = (Ok None, w2) ->
  profit_text driver w2 = (Ok text, w3) ->
  fetch_restricted_inventory_data driver isbn w
  = (Ok (if invalid_value (PyStr.strip_chars "$" text) then NA
         else PyStr.strip_chars "$" text), w3).
Proof.
  intros Hs Hp Ht.
  unfold fetch_restricted_inventory_data, fetch_restricted_inventory_body,
    try_except.
  rewrite (bind_ok _ _ _ _ _ Hs), (bind_ok _ _ _ _ _ Hp),
    (bind_ok _ _ _ _ _ Ht).
  unfold parse_profit, ret.
  destruct (invalid_value (PyStr.strip_chars "$" text)); reflexivity.
Qed.

(** C4.  A price text of site A whose field after the currency marker,
    trimmed, is empty or does not begin with a digit, and a profit text
    of site B that, stripped of the currency marker at both ends, is
    empty or does not begin with a digit, both make the extraction return
    ['N/A'] and not raise.  Site A logs a warning and makes no further
    call; site B stops in the state in which the profit text was read. *)
Theorem invalid_value_is_unavailable (driver : nat) (isbn : string)
    (wa wa1 : World) (price : string) (field : string)
    (wb wb1 wb2 wb3 : World) (profit : string) :
  price_text driver isbn wa = (Ok price, wa1) ->
  after_first "$" price = Some field ->
  invalid_value (PyStr.strip field) = true ->
  search_isbn driver isbn wb = (Ok tt, wb1) ->
  not_profitable_probe driver wb1 = (Ok None, wb2) ->
  profit_text driver wb2 = (Ok profit, wb3) ->
  invalid_value (PyStr.strip_chars "$" profit) = true ->
  (exists msg, fetch_bookscouter_data driver isbn wa
               = (Ok NA, final (logging WARNING msg wa1)))
  /\ fetch_restricted_inventory_data driver isbn wb = (Ok NA, wb3).
Proof.
  intros Hread Hfield Hbad Hs Hp Ht Hbad'. split.
  - rewrite (fetch_bookscouter_data_parses _ _ _ _ _ Hread).
    unfold try_except. rewrite parse_price_field, Hfield, Hbad. eauto.
  - rewrite (fetch_restricted_inventory_data_parses _ _ _ _ _ _ _ Hs Hp Ht).
    now rewrite Hbad'.
Qed.

(** A price text without any currency marker has no field after the
    marker: indexing raises [IndexError], which the last handler turns
    into ['N/A']. *)
Lemma price_without_marker_is_unavailable driver isbn w w1 text :
  price_text driver isbn w = (Ok text, w1) ->
  PyStr.contains "$" text = false ->
  exists msg, fetch_bookscouter_data driver isbn w
              = (Ok NA, final (logging ERROR msg w1)).
Proof.
  intros Hread Hno.
  rewrite (fetch_bookscouter_data_parses _ _ _ _ _ Hread).
  unfold try_except. rewrite parse_price_field, (after_first_none _ _ Hno).
  apply bookscouter_handlers_na.
Qed.

Lemma invalid_value_is_unavailable_witness :
  let wa := invalid_texts in
  let wa1 := final (price_text 0 "9780131103627" wa) in
  let wb := final (fetch_bookscouter_data 0 "9780131103627" wa) in
  let wb1 := final (search_isbn 0 "9780131103627" wb) in
  let wb2 := final (not_profitable_probe 0 wb1) in
  let wb3 := final (profit_text 0 wb2) in
  price_text 0 "9780131103627" wa = (Ok "Best offer: $TBD", wa1)
  /\ after_first "$" "Best offer: $TBD" = Some "TBD"
  /\ invalid_value (PyStr.strip "TBD") = true
  /\ search_isbn 0 "9780131103627" wb = (Ok tt, wb1)
  /\ not_profitable_probe 0 wb1 = (Ok None, wb2)
  /\ profit_text 0 wb2 = (Ok "-$3.20", wb3)
  /\ invalid_value (PyStr.strip_chars "$" "-$3.20") = true
  /\ (exists msg, fetch_bookscouter_data 0 "9780131103627" wa
                  = (Ok NA, final (logging WARNING msg wa1)))
  /\ fetch_restricted_inventory_data 0 "9780131103627" wb = (Ok NA, wb3).
Proof.
  intros wa wa1 wb wb1 wb2 wb3.
  do 7 (split; [reflexivity|]).
  apply (invalid_value_is_unavailable 0 "9780131103627" wa wa1
           "Best offer: $TBD" "TBD" wb wb1 wb2 wb3 "-$3.20");
    reflexivity.
Defined.

Lemma invalid_strip_by p s :
  invalid_value (PyStr.strip_by p s) = invalid_value (PyStr.lstrip_by p s).
Proof.
  unfold PyStr.strip_by.
  induction s as [|c s IH]; simpl; [reflexivity|].
  destruct (p c) eqn:Hc; [exact IH|]. simpl. rewrite Hc.
  now rewrite andb_false_r.
Qed.

Lemma invalid_before s :
  invalid_value (PyStr.strip s) = true ->
  invalid_value (PyStr.strip (before "$" s)) = true.
Proof.
  unfold PyStr.strip. rewrite !invalid_strip_by.
  induction s as [|c s IH]; simpl; [auto|].
  destruct (Ascii.eqb_spec c "$") as [->|Hne]; [reflexivity|].
  simpl. destruct (PyStr.isspace c); auto.
Qed.

(** The same for the other reading of the value after the marker: when
    all the text after the first marker, trimmed, is empty or does not
    begin with a digit, so is the field the extraction takes. *)
Lemma invalid_rest_is_unavailable driver isbn w w1 text pre post :
  price_text driver isbn w = (Ok text, w1) ->
  text = pre ++ "$" ++ post ->
  PyStr.contains "$" pre = false ->
  invalid_value (PyStr.strip post) = true ->
  exists msg, fetch_bookscouter_data driver isbn w
              = (Ok NA, final (logging WARNING msg w1)).
Proof.
  intros Hread -> Hpre Hbad.
  rewrite (fetch_bookscouter_data_parses _ _ _ _ _ Hread).
  unfold try_except. rewrite parse_price_field.
  change (pre ++ "$" ++ post) with (pre ++ String "$" post).
  rewrite (after_first_app _ _ _ Hpre), (invalid_before _ Hbad). eauto.
Qed.

(** ** The indicator of unprofitable items *)

(** C5.  Once the search of site B has been made, if the indicator
    element is present and its text contains the phrase
    [This item is not profitable enough to sell.], the extraction returns
    ['Not profitable'] in the state in which that text was read: reading
    it is the last call, no profit element is waited for or read, and the
    result does not depend on what the environment would answer next. *)
Theorem not_profitable_short_circuit (driver : nat) (isbn : string)
    (w w1 w2 w3 : World) (indicator : element) (text : string) :
  search_isbn driver isbn w = (Ok tt, w1) ->
  wait_until driver 10
    (presence_of_element_located (xpath_id "model_txt")) w1
  = (Ok indicator, w2) ->
  element_text indicator w2 = (Ok text, w3) ->
  PyStr.contains NOT_PROFITABLE_PHRASE text = true ->
  fetch_restricted_inventory_data driver isbn w = (Ok NOT_PROFITABLE, w3)
  /\ events w3 = (events w2 ++ [EvText indicator])%list.
Proof.
  intros Hs Hw Ht Hc. split.
  - unfold fetch_restricted_inventory_data, fetch_restricted_inventory_body,
      try_except.
    rewrite (bind_ok _ _ _ _ _ Hs).
    assert (P : not_profitable_probe driver w1 = (Ok (Some NOT_PROFITABLE), w3)).
    { unfold not_profitable_probe, try_except.
      rewrite (bind_ok _ _ _ _ _ Hw), (bind_ok _ _ _ _ _ Ht), Hc.
      reflexivity. }
    rewrite (bind_ok _ _ _ _ _ P). reflexivity.
  - unfold element_text, extern in Ht.
    destruct (oracle w2 (tick w2) (EvText indicator)); inversion Ht.
    reflexivity.
Qed.

Lemma not_profitable_short_circuit_witness :
  let w := unprofitable in
  let w1 := final (search_isbn 0 "9780131103627" w) in
  let c := presence_of_element_located (xpath_id "model_txt") in
  let indicator := {| el_session := 0; el_locator := xpath_id "model_txt" |} in
  let w2 := final (wait_until 0 10 c w1) in
  let w3 := final (element_text indicator w2) in
  search_isbn 0 "9780131103627" w = (Ok tt, w1)
  /\ wait_until 0 10 c w1 = (Ok indicator, w2)
  /\ element_text indicator w2
     = (Ok "This item is not profitable enough to sell.", w3)
  /\ PyStr.contains NOT_PROFITABLE_PHRASE
       "This item is not profitable enough to sell." = true
  /\ fetch_restricted_inventory_data 0 "9780131103627" w
     = (Ok NOT_PROFITABLE, w3)
  /\ events w3 = (events w2 ++ [EvText indicator])%list.
Proof.
  intros w w1 c indicator w2 w3.
  do 4 (split; [reflexivity|]).
  apply (not_profitable_short_circuit 0 "9780131103627" w w1 w2 w3 indicator
           "This item is not profitable enough to sell."); reflexivity.
Defined.

(** ** The calls of the extractions *)

Lemma emits_bind_wait {B} q d timeout c (k : element -> M B) :
  q (EvWait d timeout c) = true ->
  emits q (k {| el_session := d;
                el_locator := match c with
                              | presence_of_element_located l => l
                              | element_to_be_clickable l => l
                              end |}) ->
  emits q (bind (wait_until d timeout c) k).
Proof.
  intros Hq Hk w.
  assert (Hc : reaches q w (called (EvWait d timeout c) w)).
  { split; [reflexivity|]. exists [EvWait d timeout c]. simpl.
    now rewrite Hq. }
  unfold wait_until, bind, extern, ret, final.
  destruct (oracle w (tick w) (EvWait d timeout c)); simpl.
  - eapply reaches_trans; [exact Hc|]. exact (Hk _).
  - exact Hc.
Qed.

Ltac emits_step :=
  match goal with
  | |- emits _ (bind (wait_until _ _ _) _) =>
      apply emits_bind_wait;
      [simpl; rewrite ?Nat.eqb_refl; reflexivity|]
  | |- emits _ (ret _) => apply emits_ret
  | |- emits _ (raise _) => apply emits_raise
  | |- emits _ (logging _ _) => apply emits_logging
  | |- emits _ (getitem _ _) => apply emits_getitem
  | |- emits _ (sleep _) => apply emits_sleep; reflexivity
  | |- emits _ (extern _) =>
      apply emits_extern; simpl; rewrite ?Nat.eqb_refl; reflexivity
  | |- emits _ (bind _ _) => apply emits_bind; [|intros ?]
  | |- emits _ (try_except _ _) => apply emits_try_except; [|intros ?]
  | |- emits _ (try_finally _ _) => apply emits_try_finally
  | |- emits _ (if ?b then _ else _) => destruct b
  | |- emits _ (match ?x with _ => _ end) => destruct x
  end.

Lemma emits_fetch_bookscouter_data d isbn :
  emits (extraction_event d) (fetch_bookscouter_data d isbn).
Proof.
  unfold fetch_bookscouter_data, fetch_bookscouter_body, price_text,
    parse_price, fetch_bookscouter_handlers, driver_get, element_text.
  repeat emits_step.
Qed.

Lemma emits_fetch_restricted_inventory_data d isbn :
  emits (extraction_event d) (fetch_restricted_inventory_data d isbn).
Proof.
  unfold fetch_restricted_inventory_data, fetch_restricted_inventory_body,
    search_isbn, not_profitable_probe, profit_text, parse_profit,
    fetch_restricted_inventory_handlers, driver_get, element_text,
    element_clear, element_send_keys, element_click.
  repeat emits_step.
Qed.

Lemma extern_reliable kind ev w :
  reliable kind (oracle w) -> kind ev = true ->
  exists text, extern ev w = (Ok text, called ev w).
Proof.
  intros Hr Hk. destruct (Hr (tick w) ev Hk) as [text E].
  exists text. unfold extern. now rewrite E.
Qed.

(** ** One session per item *)

Lemma init_driver_ok w d w0 :
  init_driver w = (Ok d, w0) ->
  d = sessions w /\ oracle w0 = oracle w /\
  events w0
  = (events w ++ [chrome_launch; EvSetPageLoadTimeout d PAGE_LOAD_TIMEOUT])%list.
Proof.
  unfold init_driver, webdriver_Chrome, set_page_load_timeout, bind, extern,
    ret, chrome_launch.
  destruct (oracle w (tick w) _); [|discriminate]. simpl.
  match goal with |- context [oracle ?a ?b ?c] => destruct (oracle a b c) end;
    [|discriminate].
  intros E. inversion E; subst; clear E. simpl.
  repeat split. now rewrite <- app_assoc.
Qed.

Lemma init_driver_raises w e w0 :
  init_driver w = (Raise e, w0) ->
  oracle w0 = oracle w
  /\ ((oracle w (tick w) chrome_launch = Raises e
       /\ w0 = called chrome_launch w
       /\ sessions w0 = sessions w)
      \/ (oracle w (S (tick w))
            (EvSetPageLoadTimeout (sessions w) PAGE_LOAD_TIMEOUT)
          = Raises e
          /\ tick w0 = S (S (tick w))
          /\ events w0
             = (events w
                ++ [chrome_launch;
                    EvSetPageLoadTimeout (sessions w) PAGE_LOAD_TIMEOUT])%list
          /\ sessions w0 = S (sessions w))).
Proof.
  unfold init_driver, webdriver_Chrome, set_page_load_timeout, chrome_launch.
  cbv [bind extern ret].
  destruct (oracle w (tick w) _) as [t|e1] eqn:E1; cbn.
  - match goal with
    | |- context [match oracle ?a ?b ?c with _ => _ end] =>
        destruct (oracle a b c) as [t2|e2] eqn:E2; cbn
    end; [discriminate|].
    intros H. inversion H; subst. split; [reflexivity|]. right.
    cbn in E2. repeat split; auto. cbn. now rewrite <- app_assoc.
  - intros H. inversion H; subst. split; [reflexivity|]. left. auto.
Qed.

Lemma init_driver_reliable w :
  reliable lifecycle_event (oracle w) ->
  exists w0, init_driver w = (Ok (sessions w), w0).
Proof.
  intros Hr.
  unfold init_driver, webdriver_Chrome, set_page_load_timeout, bind, extern,
    ret.
  destruct (Hr (tick w) chrome_launch eq_refl) as [t1 E1].
  unfold chrome_launch in E1. rewrite E1. simpl.
  destruct (Hr (S (tick w))
              (EvSetPageLoadTimeout (sessions w) PAGE_LOAD_TIMEOUT) eq_refl)
    as [t2 E2].
  rewrite E2. eauto.
Qed.

Lemma process_isbn_with_quits fetch_a fetch_b isbn row w d w0 :
  init_driver w = (Ok d, w0) ->
  process_isbn_with fetch_a fetch_b isbn row w
  = let ab := extract_both fetch_a fetch_b d isbn row w0 in
    (match oracle (final ab) (tick (final ab)) (EvQuit d) with
     | Returns _ => outcome ab
     | Raises e => Raise e
     end, called (EvQuit d) (final ab)).
Proof.
  intros Hi. unfold process_isbn_with. rewrite (bind_ok _ _ _ _ _ Hi).
  unfold try_finally, driver_quit, bind, extern, ret, final, outcome.
  destruct (extract_both fetch_a fetch_b d isbn row w0) as [r w1]. simpl.
  destruct (oracle w1 (tick w1) (EvQuit d)); reflexivity.
Qed.

Lemma extract_both_returns d isbn row w0 :
  exists a b wa wb,
    fetch_bookscouter_data d isbn w0 = (Ok a, wa)
    /\ fetch_restricted_inventory_data d isbn wa = (Ok b, wb)
    /\ extract_both fetch_bookscouter_data fetch_restricted_inventory_data
         d isbn row w0
       = (Ok {| ISBN := isbn; BookScouter := a; RestrictedInventory := b;
                RowIndex := row |}, wb).
Proof.
  destruct (fetch_bookscouter_data_returns d isbn w0) as (a & wa & Ea).
  destruct (fetch_restricted_inventory_data_returns d isbn wa)
    as (b & wb & Eb).
  exists a, b, wa, wb. repeat split; auto.
  unfold extract_both.
  now rewrite (bind_ok _ _ _ _ _ Ea), (bind_ok _ _ _ _ _ Eb).
Qed.

(** C6, as amended.  Every exit of [process_isbn], by the outcome of
    [init_driver] (line 134, before the [try] block).

    When [init_driver] has returned the session [d], [process_isbn]
    makes, after the launch of that one browser and the setting of its
    page-load timeout, the calls of the site-A extraction, then the
    calls of the site-B extraction, run from the state the site-A
    extraction left, then [quit] on [d], and nothing else: every call of
    the two extractions is on session [d], none launches or quits a
    browser.  For any two extraction procedures put in their place,
    whether they return or raise, [quit] on [d] is the call that follows
    the end of the [try] block and the last call of the run.

    When [init_driver] raises, the exception leaves [process_isbn] from
    the state [init_driver] left, whatever the extraction procedures
    are: no extraction is run and [quit] is not called.  The calls made
    are the launch alone when the launch raised, the launch and the
    setting of the page-load timeout when the latter raised. *)
Theorem session_closed_once_started (isbn : string) (row_index : pyval)
    (w : World) :
  match init_driver w with
  | (Ok d, w0) =>
      (exists ta tb,
          let wa := final (fetch_bookscouter_data d isbn w0) in
          let wb := final (fetch_restricted_inventory_data d isbn wa) in
          events (final (process_isbn isbn row_index w))
          = (events w
             ++ [chrome_launch; EvSetPageLoadTimeout d PAGE_LOAD_TIMEOUT]
             ++ ta ++ tb ++ [EvQuit d])%list
          /\ events wa = (events w0 ++ ta)%list
          /\ events wb = (events wa ++ tb)%list
          /\ forallb (extraction_event d) ta = true
          /\ forallb (extraction_event d) tb = true)
      /\ (forall fetch_a fetch_b : nat -> string -> M string,
            events (final (process_isbn_with fetch_a fetch_b isbn row_index w))
            = (events (final (extract_both fetch_a fetch_b d isbn row_index w0))
               ++ [EvQuit d])%list)
  | (Raise e, w0) =>
      (forall fetch_a fetch_b : nat -> string -> M string,
          process_isbn_with fetch_a fetch_b isbn row_index w = (Raise e, w0))
      /\ process_isbn isbn row_index w = (Raise e, w0)
      /\ ((events w0 = (events w ++ [chrome_launch])%list
           /\ sessions w0 = sessions w)
          \/ (events w0
              = (events w
                 ++ [chrome_launch;
                     EvSetPageLoadTimeout (sessions w) PAGE_LOAD_TIMEOUT])%list
              /\ sessions w0 = S (sessions w)))
  end.
Proof.
  destruct (init_driver w) as [[d|e] w0] eqn:Hi.
  - split.
    + destruct (extract_both_returns d isbn row_index w0)
        as (a & b & wa & wb & Ea & Eb & Eab).
      destruct (emits_fetch_bookscouter_data d isbn w0)
        as [_ (ta & Hta & Fa)].
      rewrite Ea in Hta. simpl in Hta.
      destruct (emits_fetch_restricted_inventory_data d isbn wa)
        as [_ (tb & Htb & Fb)].
      rewrite Eb in Htb. simpl in Htb.
      exists ta, tb. rewrite Ea. simpl. rewrite Eb. simpl.
      repeat split; auto.
      unfold process_isbn. rewrite (process_isbn_with_quits _ _ _ _ _ _ _ Hi).
      rewrite Eab. simpl. rewrite Htb, Hta.
      destruct (init_driver_ok _ _ _ Hi) as (_ & _ & ->).
      now rewrite <- !app_assoc.
    + intros fetch_a fetch_b.
      now rewrite (process_isbn_with_quits _ _ _ _ _ _ _ Hi).
  - assert (Hp : forall fetch_a fetch_b : nat -> string -> M string,
               process_isbn_with fetch_a fetch_b isbn row_index w
               = (Raise e, w0)).
    { intros fetch_a fetch_b. unfold process_isbn_with.
      now rewrite (bind_raise _ _ _ _ _ Hi). }
    split; [exact Hp|]. split; [apply Hp|].
    destruct (init_driver_raises _ _ _ Hi)
      as (_ & [(_ & -> & Hs) | (_ & _ & He & Hs)]).
    + left. split; [reflexivity|exact Hs].
    + right. split; assumption.
Qed.

(** C6, as stated, fails: a run of [process_isbn] that has launched a
    browser need not call [quit] on it.  When the launch returns and the
    setting of the page-load timeout raises, the exception leaves
    [process_isbn] at line 134 and the session is never closed. *)
Lemma session_left_open_counterexample :
  ~ (forall (isbn : string) (row_index : pyval) (w : World),
        let r := process_isbn isbn row_index w in
        sessions (final r) = S (sessions w) ->
        In (EvQuit (sessions w)) (events (final r))).
Proof.
  intros claim.
  specialize (claim "9780131103627" (VInt 2) no_page_load_timeout).
  vm_compute in claim. specialize (claim eq_refl).
  destruct claim as [H|[H|[]]]; discriminate H.
Qed.

(** The run of the counterexample. *)
Example session_left_open_run :
  let r := process_isbn "9780131103627" (VInt 2) no_page_load_timeout in
  outcome r = Raise (Exn WebDriverException "Message: disconnected")
  /\ events (final r) = [chrome_launch; EvSetPageLoadTimeout 0 60]
  /\ sessions (final r) = 1.
Proof. vm_compute. auto. Qed.

(** An extraction that raises: the exception leaves [process_isbn], and
    [quit] is still the last call. *)
Example quit_after_raising_extraction :
  let r := process_isbn_with fetch_bookscouter_data failing_extraction
             "9780131103627" (VInt 2) (start (script [])) in
  outcome r = Raise (Exn OtherException "unexpected")
  /\ last (events (final r)) = Some (EvQuit 0)
  /\ List.filter lifecycle_event (events (final r))
     = [chrome_launch; EvSetPageLoadTimeout 0 60; EvQuit 0].
Proof. vm_compute. auto. Qed.

(** A browser that fails to start: the exception leaves [process_isbn]
    before its [try] block, and [process_batch] with it. *)
Example session_failure_propagates :
  let r := process_batch [("111", VInt 2); ("222", VInt 3)]
             (start (script [Raises (Exn WebDriverException
                                       "Message: session not created")])) in
  outcome r = Raise (Exn WebDriverException "Message: session not created")
  /\ events (final r) = [chrome_launch].
Proof. vm_compute. auto. Qed.

Lemma process_isbn_reliable isbn row w :
  reliable lifecycle_event (oracle w) ->
  exists a b w' t,
    process_isbn isbn row w
    = (Ok {| ISBN := isbn; BookScouter := a; RestrictedInventory := b;
             RowIndex := row |}, w')
    /\ oracle w' = oracle w
    /\ events w'
       = (events w ++ chrome_launch :: t ++ [EvQuit (sessions w)])%list
    /\ forallb browser_event t = true.
Proof.
  intros Hr. destruct (init_driver_reliable w Hr) as [w0 Hi].
  destruct (init_driver_ok _ _ _ Hi) as (_ & Ho0 & He0).
  destruct (extract_both_returns (sessions w) isbn row w0)
    as (a & b & wa & wb & Ea & Eb & Eab).
  destruct (emits_fetch_bookscouter_data (sessions w) isbn w0)
    as [Hoa (ta & Hta & Fa)].
  rewrite Ea in Hoa, Hta. simpl in Hoa, Hta.
  destruct (emits_fetch_restricted_inventory_data (sessions w) isbn wa)
    as [Hob (tb & Htb & Fb)].
  rewrite Eb in Hob, Htb. simpl in Hob, Htb.
  assert (Howb : oracle wb = oracle w) by congruence.
  exists a, b, (called (EvQuit (sessions w)) wb),
    (EvSetPageLoadTimeout (sessions w) PAGE_LOAD_TIMEOUT :: ta ++ tb)%list.
  unfold process_isbn. rewrite (process_isbn_with_quits _ _ _ _ _ _ _ Hi).
  rewrite Eab. simpl.
  assert (Hq : exists text,
             oracle wb (tick wb) (EvQuit (sessions w)) = Returns text).
  { rewrite Howb. now apply Hr. }
  destruct Hq as [text ->]. repeat split; auto.
  - rewrite Htb, Hta, He0. simpl. rewrite <- !app_assoc. reflexivity.
  - simpl. rewrite forallb_app.
    assert (W : forall l, forallb (extraction_event (sessions w)) l = true ->
                          forallb browser_event l = true).
    { intros l. rewrite !forallb_forall. intros H x Hx.
      specialize (H x Hx). destruct x; simpl in *; congruence. }
    now rewrite (W _ Fa), (W _ Fb).
Qed.

(** ** The batch coordinator *)

Lemma executor_map_reliable (isbn_data : list (string * pyval)) :
  forall w,
    reliable lifecycle_event (oracle w) ->
    exists results w',
      executor_map (fun x => process_isbn (fst x) (snd x)) isbn_data w
      = (Ok results, w')
      /\ map ISBN results = map fst isbn_data
      /\ map RowIndex results = map snd isbn_data.
Proof.
  induction isbn_data as [|[isbn row] rest IH]; intros w Hr.
  - exists [], w. repeat split.
  - destruct (process_isbn_reliable isbn row w Hr)
      as (a & b & w1 & t & E1 & Ho & _).
    destruct (IH w1) as (results & w' & E2 & Hi & Hrow).
    { now rewrite Ho. }
    eexists (_ :: results), w'. simpl.
    rewrite (bind_ok _ _ _ _ _ E1), (bind_ok _ _ _ _ _ E2).
    split; [reflexivity|]. simpl. now rewrite Hi, Hrow.
Qed.

(** C2.  In an environment where browser sessions start and shut down
    without error, [process_batch] applied to [N] items with pairwise
    distinct row indexes returns [N] results; their row indexes are those
    of the items, in the order of the items, hence each exactly once, and
    each result carries the ISBN of its item. *)
Theorem batch_results_match_items (isbn_data : list (string * pyval))
    (w : World) :
  reliable lifecycle_event (oracle w) ->
  NoDup (map snd isbn_data) ->
  exists results w',
    process_batch isbn_data w = (Ok results, w')
    /\ length results = length isbn_data
    /\ map RowIndex results = map snd isbn_data
    /\ map ISBN results = map fst isbn_data
    /\ NoDup (map RowIndex results)
    /\ Permutation (map RowIndex results) (map snd isbn_data).
Proof.
  intros Hr Hnd.
  destruct (executor_map_reliable isbn_data w Hr)
    as (results & w' & E & Hi & Hrow).
  exists results, w'. unfold process_batch.
  rewrite (bind_ok _ _ _ _ _ E). repeat split; auto.
  - rewrite <- (length_map RowIndex results), Hrow. apply length_map.
  - now rewrite Hrow.
  - now rewrite Hrow.
Qed.

Lemma two_items_sessions_reliable :
  reliable lifecycle_event (oracle two_items).
Proof.
  intros n ev H. destruct ev; try discriminate H; eexists; reflexivity.
Qed.

Lemma two_items_store_reliable : reliable store_event (oracle two_items).
Proof.
  intros n ev H. destruct ev; try discriminate H; eexists; reflexivity.
Qed.

Lemma batch_results_match_items_witness :
  let isbn_data := [("111", VInt 2); ("222", VInt 3)] in
  reliable lifecycle_event (oracle two_items)
  /\ NoDup (map snd isbn_data)
  /\ exists results w',
      process_batch isbn_data two_items = (Ok results, w')
      /\ length results = length isbn_data
      /\ map RowIndex results = map snd isbn_data
      /\ map ISBN results = map fst isbn_data
      /\ NoDup (map RowIndex results)
      /\ Permutation (map RowIndex results) (map snd isbn_data).
Proof.
  intros isbn_data.
  assert (Hr : reliable lifecycle_event (oracle two_items)).
  { exact two_items_sessions_reliable. }
  assert (Hnd : NoDup (map snd isbn_data)).
  { refine (bool_decide_unpack _ _). vm_compute. exact I. }
  split; [exact Hr|]. split; [exact Hnd|].
  exact (batch_results_match_items isbn_data two_items Hr Hnd).
Defined.

(** The scenario of the specification: the results of the two items. *)
Example process_batch_two_items :
  outcome (process_batch [("111", VInt 2); ("222", VInt 3)] two_items)
  = Ok [{| ISBN := "111"; BookScouter := "N/A";
           RestrictedInventory := "N/A"; RowIndex := VInt 2 |};
        {| ISBN := "222"; BookScouter := "12.50";
           RestrictedInventory := "Not profitable"; RowIndex := VInt 3 |}].
Proof. vm_compute. reflexivity. Qed.

(** ** The status tracker *)

Lemma update_processing_status_reliable isbn st w :
  reliable store_event (oracle w) ->
  update_processing_status isbn st w
  = (Ok tt,
     stored isbn st
       (called (EvDocSet "isbn_processing_status" isbn st)
          (called EvFirestoreClient w))).
Proof.
  intros Hr. unfold update_processing_status, doc_set, bind, extern.
  destruct (Hr (tick w) EvFirestoreClient eq_refl) as [t1 ->]. simpl.
  destruct (Hr (S (tick w)) (EvDocSet "isbn_processing_status" isbn st)
              eq_refl) as [t2 ->].
  reflexivity.
Qed.

(** C8.  In an environment where the status store works, two calls of
    [update_processing_status] with the same ISBN and status both return;
    after each the collection holds for that ISBN the one document with
    that status, the second stamped later than the first; after the
    second the collection is the collection before the calls with that
    single document written, so the later write is the one kept; and the
    collection after two calls differs from the collection after one
    call in timestamps only. *)
Theorem mark_is_idempotent (isbn st : string) (w : World) :
  reliable store_event (oracle w) ->
  let w1 := final (update_processing_status isbn st w) in
  let w2 := final (update_processing_status isbn st w1) in
  update_processing_status isbn st w = (Ok tt, w1)
  /\ update_processing_status isbn st w1 = (Ok tt, w2)
  /\ exists t1 t2,
      isbn_processing_status w1 !! isbn
      = Some {| status := st; timestamp := t1 |}
      /\ isbn_processing_status w2 !! isbn
         = Some {| status := st; timestamp := t2 |}
      /\ t1 < t2
      /\ isbn_processing_status w2
         = <[isbn := {| status := st; timestamp := t2 |}]>
             (isbn_processing_status w)
      /\ status <$> isbn_processing_status w2
         = status <$> isbn_processing_status w1
      /\ dom (isbn_processing_status w2) = dom (isbn_processing_status w1).
Proof.
  intros Hr w1 w2. subst w2 w1.
  rewrite (update_processing_status_reliable isbn st w Hr). simpl.
  rewrite (update_processing_status_reliable isbn st
             (stored isbn st
                (called (EvDocSet "isbn_processing_status" isbn st)
                   (called EvFirestoreClient w))) Hr). simpl.
  split; [reflexivity|]. split; [reflexivity|].
  exists (S (S (now w))), (S (S (S (S (now w))))).
  split; [apply lookup_insert_eq|]. split; [apply lookup_insert_eq|].
  split; [lia|]. split; [apply insert_insert_eq|].
  split.
  - now rewrite !fmap_insert, insert_insert_eq.
  - now rewrite !dom_insert_L, union_assoc_L, union_idemp_L.
Qed.

(** ** The loop of [process_isbn_batch] *)

Lemma unpack_unpacked x :
  match unpacked x with
  | Some p => unpack x = ret p
  | None => exists msg, unpack x = raise (Exn ValueError msg)
  end.
Proof.
  destruct x as [isbn row|token]; [reflexivity|].
  destruct token as [|a [|b [|c rest]]]; simpl; eauto.
Qed.

Lemma loop_step x rest acc w p :
  reliable lifecycle_event (oracle w) ->
  reliable store_event (oracle w) ->
  unpacked x = Some p ->
  exists result w1 block,
    process_isbn_batch_loop (x :: rest) acc w
    = process_isbn_batch_loop rest (acc ++ [result])%list w1
    /\ ISBN result = fst p /\ RowIndex result = snd p
    /\ oracle w1 = oracle w
    /\ events w1 = (events w ++ block)%list
    /\ item_block (fst p) block.
Proof.
  intros Hl Hs Hp.
  pose proof (unpack_unpacked x) as Hu. rewrite Hp in Hu.
  destruct (process_isbn_reliable (fst p) (snd p) w Hl)
    as (a & b & w1 & t & E1 & Ho1 & He1 & Ft).
  assert (Hs1 : reliable store_event (oracle w1)) by now rewrite Ho1.
  pose proof (update_processing_status_reliable (fst p) "processed" w1 Hs1)
    as E2.
  eexists _, _, (chrome_launch :: t
                 ++ [EvQuit (sessions w); EvFirestoreClient;
                     EvDocSet "isbn_processing_status" (fst p) "processed"])%list.
  split.
  { simpl. rewrite Hu. unfold bind at 1. unfold ret at 1.
    rewrite (bind_ok _ _ _ _ _ E1), (bind_ok _ _ _ _ _ E2). reflexivity. }
  simpl. repeat split; auto.
  - rewrite He1. rewrite <- !app_assoc. simpl. rewrite <- !app_assoc.
    reflexivity.
  - exists CHROME_DRIVER_PATH,
      ["--headless"; "--no-sandbox"; "--disable-dev-shm-usage"],
      (sessions w), t.
    split; [reflexivity|exact Ft].
Qed.

Lemma loop_prefix done :
  forall rest acc w,
    reliable lifecycle_event (oracle w) ->
    reliable store_event (oracle w) ->
    Forall (fun x => is_Some (unpacked x)) done ->
    exists results w1 blocks,
      process_isbn_batch_loop (done ++ rest) acc w
      = process_isbn_batch_loop rest (acc ++ results)%list w1
      /\ Forall2 (fun x r => unpacked x = Some (ISBN r, RowIndex r))
           done results
      /\ oracle w1 = oracle w
      /\ events w1 = (events w ++ concat blocks)%list
      /\ Forall2 entry_block done blocks.
Proof.
  induction done as [|x done IH]; intros rest acc w Hl Hs Hd.
  - exists [], w, []. simpl. rewrite !app_nil_r. repeat split; constructor.
  - inversion Hd as [|? ? [p Hp] Hd']; subst.
    destruct (loop_step x (done ++ rest) acc w p Hl Hs Hp)
      as (r & w1 & block & E & Hi & Hrow & Ho & He & Hb).
    destruct (IH rest (acc ++ [r])%list w1) as
      (results & w2 & blocks & E2 & Hres & Ho2 & He2 & Hbs); auto.
    { now rewrite Ho. } { now rewrite Ho. }
    exists (r :: results), w2, (block :: blocks).
    split.
    { change ((x :: done) ++ rest)%list with (x :: (done ++ rest))%list.
      rewrite E, E2. now rewrite <- app_assoc. }
    split.
    { constructor; [|exact Hres]. rewrite Hp, Hi, Hrow. now destruct p. }
    split; [congruence|]. split.
    { rewrite He2, He. simpl. now rewrite <- app_assoc. }
    constructor; [|exact Hbs]. exists p. auto.
Qed.

Lemma Forall2_map_left {A B C} (P : B -> C -> Prop) (f : A -> B) l :
  forall k, Forall2 P (map f l) k -> Forall2 (fun x => P (f x)) l k.
Proof.
  induction l as [|x l IH]; intros k H; inversion H; subst; constructor; auto.
Qed.

Lemma browser_events_no_status_write t :
  forallb browser_event t = true -> List.filter status_write t = [].
Proof.
  induction t as [|ev t IH]; simpl; [reflexivity|].
  intros H. apply andb_true_iff in H as [Hev Ht].
  rewrite (IH Ht). destruct ev; simpl in *; congruence.
Qed.

Lemma item_block_status_write isbn block :
  item_block isbn block ->
  List.filter status_write block
  = [EvDocSet "isbn_processing_status" isbn "processed"].
Proof.
  intros (path & args & d & t & -> & Ft). simpl.
  rewrite List.filter_app, (browser_events_no_status_write t Ft).
  reflexivity.
Qed.

Lemma blocks_status_writes {A} (isbn_of : A -> string) items blocks :
  Forall2 (fun x block => item_block (isbn_of x) block) items blocks ->
  List.filter status_write (concat blocks)
  = map (fun x => EvDocSet "isbn_processing_status" (isbn_of x) "processed")
      items.
Proof.
  induction 1 as [|x block items blocks Hb _ IH]; simpl; [reflexivity|].
  now rewrite List.filter_app, (item_block_status_write _ _ Hb), IH.
Qed.

Lemma result_blocks entries :
  forall results blocks,
    Forall2 (fun x r => unpacked x = Some (ISBN r, RowIndex r))
      entries results ->
    Forall2 entry_block entries blocks ->
    Forall2 (fun r block => item_block (ISBN r) block) results blocks.
Proof.
  induction entries as [|x entries IH]; intros results blocks Hr Hb;
    inversion Hr; subst; inversion Hb; subst; constructor; auto.
  match goal with
  | H : entry_block x _ |- _ => destruct H as (p & Hp & Hblock)
  end.
  match goal with
  | H : unpacked x = Some (_, _) |- _ => rewrite H in Hp
  end.
  inversion Hp; subst. exact Hblock.
Qed.

(** The loop on a list whose every entry unpacks.  In an environment
    where browser sessions and the status store work,
    [process_isbn_batch] returns one result per entry, and its calls are
    one block per entry, in the order of the entries: the calls of
    [process_isbn] for the entry, from the launch of the browser to
    [quit], immediately followed by the write of the status [processed]
    for that ISBN.  The status writes are one per result, in order. *)
Lemma loop_blocks_of_unpacked_entries (isbn_batch : list entry)
    (w : World) :
  reliable lifecycle_event (oracle w) ->
  reliable store_event (oracle w) ->
  Forall (fun x => is_Some (unpacked x)) isbn_batch ->
  exists results w' blocks,
    process_isbn_batch isbn_batch w = (Ok results, w')
    /\ Forall2 (fun x r => unpacked x = Some (ISBN r, RowIndex r))
         isbn_batch results
    /\ events w' = (events w ++ concat blocks)%list
    /\ Forall2 entry_block isbn_batch blocks
    /\ List.filter status_write (concat blocks)
       = map (fun r => EvDocSet "isbn_processing_status" (ISBN r) "processed")
           results.
Proof.
  intros Hl Hs Hu.
  destruct (loop_prefix isbn_batch [] [] w Hl Hs Hu)
    as (results & w' & blocks & E & Hres & _ & He & Hbs).
  exists results, w', blocks.
  unfold process_isbn_batch. rewrite app_nil_r in E. rewrite E.
  simpl. repeat split; auto.
  apply (blocks_status_writes ISBN results blocks).
  exact (result_blocks isbn_batch results blocks Hres Hbs).
Qed.

Lemma mark_is_idempotent_witness :
  reliable store_event (oracle two_items)
  /\ exists t1 t2,
      isbn_processing_status
        (final (update_processing_status "111" "processed" two_items))
      !! "111" = Some {| status := "processed"; timestamp := t1 |}
      /\ isbn_processing_status
           (final (update_processing_status "111" "processed"
                     (final (update_processing_status "111" "processed"
                               two_items))))
         !! "111" = Some {| status := "processed"; timestamp := t2 |}
      /\ t1 < t2.
Proof.
  assert (Hs : reliable store_event (oracle two_items)).
  { exact two_items_store_reliable. }
  split; [exact Hs|].
  destruct (mark_is_idempotent "111" "processed" two_items Hs)
    as (_ & _ & t1 & t2 & H1 & H2 & Hlt & _).
  exists t1, t2. auto.
Defined.

(** ** The queue path *)

Lemma emits_webdriver_Chrome path args :
  emits browser_event (webdriver_Chrome path args).
Proof.
  intros w. unfold webdriver_Chrome, bind, extern, final.
  destruct (oracle w (tick w) (EvChrome path args)); simpl;
    (split; [reflexivity|]); exists [EvChrome path args]; auto.
Qed.

Lemma extraction_event_browser d ev :
  extraction_event d ev = true -> browser_event ev = true.
Proof. destruct ev; simpl; congruence. Qed.

Lemma emits_process_isbn isbn row : emits browser_event (process_isbn isbn row).
Proof.
  unfold process_isbn, process_isbn_with, init_driver.
  apply emits_bind.
  - apply emits_bind; [apply emits_webdriver_Chrome|]. intros d.
    unfold set_page_load_timeout. repeat emits_step.
  - intros d. apply emits_try_finally.
    + unfold extract_both. apply emits_bind.
      * eapply emits_weaken; [apply extraction_event_browser|].
        apply emits_fetch_bookscouter_data.
      * intros a. apply emits_bind; [|intros b; apply emits_ret].
        eapply emits_weaken; [apply extraction_event_browser|].
        apply emits_fetch_restricted_inventory_data.
    + unfold driver_quit. repeat emits_step.
Qed.

Lemma emits_update_processing_status isbn st :
  emits batch_event (update_processing_status isbn st).
Proof.
  intros w. unfold update_processing_status, doc_set, bind, extern, final.
  destruct (oracle w (tick w) EvFirestoreClient); simpl.
  - match goal with |- context [oracle ?a ?b ?c] => destruct (oracle a b c) end;
      simpl; (split; [reflexivity|]);
      exists [EvFirestoreClient; EvDocSet "isbn_processing_status" isbn st];
      simpl; rewrite <- app_assoc; auto.
  - split; [reflexivity|]. exists [EvFirestoreClient]. auto.
Qed.

Lemma emits_process_isbn_batch_loop entries :
  forall acc, emits batch_event (process_isbn_batch_loop entries acc).
Proof.
  induction entries as [|x rest IH]; intros acc; simpl.
  - apply emits_ret.
  - apply emits_bind.
    + pose proof (unpack_unpacked x) as Hu.
      destruct (unpacked x); [rewrite Hu; apply emits_ret|].
      destruct Hu as [msg ->]. apply emits_raise.
    + intros p. apply emits_bind.
      * eapply emits_weaken; [|apply emits_process_isbn].
        intros ev H. unfold batch_event. now rewrite H.
      * intros r. apply emits_bind; [apply emits_update_processing_status|].
        intros _. apply IH.
Qed.

Lemma loop_raises entries :
  forall acc w,
    Exists (fun x => unpacked x = None) entries ->
    exists e w', process_isbn_batch_loop entries acc w = (Raise e, w').
Proof.
  induction entries as [|x rest IH]; intros acc w H; [inversion H|].
  simpl. pose proof (unpack_unpacked x) as Hu.
  destruct (unpacked x) as [p|] eqn:Hp.
  - rewrite Hu. unfold bind at 1. unfold ret at 1.
    inversion H as [? ? Hx|? ? Hrest]; subst; [congruence|].
    unfold bind at 1.
    destruct (process_isbn (fst p) (snd p) w) as [[r|e] w1]; [|eauto].
    unfold bind at 1.
    destruct (update_processing_status (fst p) "processed" w1)
      as [[u|e] w2]; [|eauto].
    apply IH. exact Hrest.
  - destruct Hu as [msg ->]. unfold bind, raise. eauto.
Qed.

Lemma unpacked_length_two token :
  String.length token = 2 -> is_Some (unpacked (EntryStr token)).
Proof.
  destruct token as [|a [|b [|c rest]]]; simpl; try discriminate. eauto.
Qed.

Lemma unpacked_other_length token :
  String.length token <> 2 -> unpacked (EntryStr token) = None.
Proof.
  destruct token as [|a [|b [|c rest]]]; simpl; try reflexivity.
  intros H. now contradiction H.
Qed.

Lemma loop_unfit x rest acc w :
  unpacked x = None ->
  exists msg,
    process_isbn_batch_loop (x :: rest) acc w = (Raise (Exn ValueError msg), w).
Proof.
  intros Hx. pose proof (unpack_unpacked x) as Hu. rewrite Hx in Hu.
  destruct Hu as [msg Hu]. exists msg. simpl. rewrite Hu. reflexivity.
Qed.

Lemma batch_events_no_delivery t :
  forallb batch_event t = true ->
  forallb (fun ev => negb (delivery_event ev)) t = true.
Proof.
  rewrite !forallb_forall. intros H ev Hev. specialize (H ev Hev).
  unfold batch_event in H. destruct ev; simpl in *; congruence.
Qed.

(** A list with a token of another length than two splits at the first
    such token. *)
Lemma first_unfit_token (tokens : list string) :
  Exists (fun token => String.length token <> 2) tokens ->
  exists good bad rest,
    tokens = (good ++ bad :: rest)%list
    /\ Forall (fun token => String.length token = 2) good
    /\ String.length bad <> 2.
Proof.
  induction tokens as [|token tokens IH]; intros H; [inversion H|].
  destruct (Nat.eq_dec (String.length token) 2) as [Heq|Hne].
  - inversion H as [? ? Hx|? ? Hrest]; subst; [contradiction|].
    destruct (IH Hrest) as (good & bad & rest & -> & Hgood & Hbad).
    exists (token :: good), bad, rest. repeat split; auto.
  - exists [], token, tokens. repeat split; auto.
Qed.

(** C10, as amended.  Let the payload split on commas into tokens of
    length two followed by a token [bad] of another length.  Then the
    queue path raises: it returns no result, writes no cell of the sheet
    and does not acknowledge the message.  When [bad] is the first token,
    the exception is the [ValueError] of the unpacking and it is raised
    before any call at all, so before any result or status update.  When
    tokens of length two come first, each is unpacked into two texts of
    one character and processed, status write included, before the
    error: in an environment where browser sessions and the status store
    work, the calls of the run are one block per such token and then the
    [ValueError] is raised. *)
Theorem unpacking_error_at_first_unfit_token (message : Message) (w : World)
    (good : list string) (bad : string) (rest : list string) :
  PyStr.split "," (data message) = (good ++ bad :: rest)%list ->
  Forall (fun token => String.length token = 2) good ->
  String.length bad <> 2 ->
  (exists e w' t,
      process_pubsub_message message w = (Raise e, w')
      /\ events w' = (events w ++ t)%list
      /\ forallb (fun ev => negb (delivery_event ev)) t = true)
  /\ (good = [] ->
      exists msg,
        process_pubsub_message message w = (Raise (Exn ValueError msg), w))
  /\ (reliable lifecycle_event (oracle w) ->
      reliable store_event (oracle w) ->
      exists msg w' blocks,
        process_pubsub_message message w = (Raise (Exn ValueError msg), w')
        /\ events w' = (events w ++ concat blocks)%list
        /\ Forall2 (fun token block => entry_block (EntryStr token) block)
             good blocks).
Proof.
  intros Hsplit Hgood Hbad.
  pose proof (unpacked_other_length bad Hbad) as Hnone.
  unfold process_pubsub_message, process_isbn_batch.
  rewrite Hsplit, map_app. simpl map.
  split; [|split].
  - destruct (loop_raises
                (map EntryStr good ++ EntryStr bad :: map EntryStr rest) [] w)
      as (e & w' & E).
    { apply Exists_app. right. now constructor. }
    destruct (emits_process_isbn_batch_loop
                (map EntryStr good ++ EntryStr bad :: map EntryStr rest) [] w)
      as [_ (t & Ht & Ft)].
    rewrite E in Ht. simpl in Ht.
    exists e, w', t. rewrite (bind_raise _ _ _ _ _ E).
    repeat split; auto. now apply batch_events_no_delivery.
  - intros ->. simpl app.
    destruct (loop_unfit (EntryStr bad) (map EntryStr rest) [] w Hnone)
      as [msg E].
    exists msg. now rewrite (bind_raise _ _ _ _ _ E).
  - intros Hl Hs.
    destruct (loop_prefix (map EntryStr good)
                (EntryStr bad :: map EntryStr rest) [] w Hl Hs)
      as (results & w1 & blocks & E & _ & _ & He & Hbs).
    { apply List.Forall_forall. intros x Hx.
      apply in_map_iff in Hx as (token & <- & Hin).
      apply unpacked_length_two.
      rewrite List.Forall_forall in Hgood. now apply Hgood. }
    destruct (loop_unfit (EntryStr bad) (map EntryStr rest)
                ([] ++ results)%list w1 Hnone) as [msg E'].
    rewrite <- E in E'.
    exists msg, w1, blocks. rewrite (bind_raise _ _ _ _ _ E').
    split; [reflexivity|]. split; [exact He|].
    now apply Forall2_map_left in Hbs.
Qed.

Lemma unpacking_error_at_first_unfit_token_witness :
  let w := two_items in
  PyStr.split "," (data short_token_first) = (["ab"] ++ ["9780131103627"])%list
  /\ Forall (fun token => String.length token = 2) ["ab"]
  /\ String.length "9780131103627" <> 2
  /\ reliable lifecycle_event (oracle w)
  /\ reliable store_event (oracle w)
  /\ (exists e w' t,
        process_pubsub_message short_token_first w = (Raise e, w')
        /\ events w' = (events w ++ t)%list
        /\ forallb (fun ev => negb (delivery_event ev)) t = true)
  /\ (exists msg w' blocks,
        process_pubsub_message short_token_first w
        = (Raise (Exn ValueError msg), w')
        /\ events w' = (events w ++ concat blocks)%list
        /\ Forall2 (fun token block => entry_block (EntryStr token) block)
             ["ab"] blocks).
Proof.
  intros w.
  assert (H1 : PyStr.split "," (data short_token_first)
               = (["ab"] ++ ["9780131103627"])%list) by reflexivity.
  assert (H2 : Forall (fun token => String.length token = 2) ["ab"])
    by (repeat constructor).
  assert (H3 : String.length "9780131103627" <> 2) by (simpl; lia).
  assert (Hl : reliable lifecycle_event (oracle w)).
  { exact two_items_sessions_reliable. }
  assert (Hs : reliable store_event (oracle w)).
  { exact two_items_store_reliable. }
  destruct (unpacking_error_at_first_unfit_token short_token_first w
              ["ab"] "9780131103627" [] H1 H2 H3) as (P1 & _ & P3).
  repeat split; auto.
Defined.

(** C10, as stated, fails: in the payload [ab,9780131103627] the second
    token is not of length two, yet before the unpacking error the first
    token is processed as the ISBN [a] and its status is written. *)
Lemma unpacking_error_counterexample :
  ~ (forall (message : Message) (w : World) (token : string),
        In token (PyStr.split "," (data message)) ->
        String.length token <> 2 ->
        exists e w',
          process_pubsub_message message w = (Raise e, w')
          /\ exn_cls e = ValueError
          /\ isbn_processing_status w' = isbn_processing_status w).
Proof.
  intros claim.
  destruct (claim short_token_first (start (script [])) "9780131103627")
    as (e & w' & E & _ & Hstore).
  { simpl. auto. }
  { simpl. lia. }
  assert (Hw : w' = final (process_pubsub_message short_token_first
                             (start (script [])))) by now rewrite E.
  subst w'. apply (f_equal (fun m => m !! "a")) in Hstore.
  vm_compute in Hstore. discriminate Hstore.
Qed.

(** The run of the counterexample: the error is the unpacking error, and
    the status of the ISBN [a] has been written. *)
Example short_token_first_run :
  let r := process_pubsub_message short_token_first (start (script [])) in
  outcome r = Raise (Exn ValueError "too many values to unpack (expected 2)")
  /\ status <$> (isbn_processing_status (final r) !! "a") = Some "processed"
  /\ List.filter status_write (events (final r))
     = [EvDocSet "isbn_processing_status" "a" "processed"].
Proof. vm_compute. auto. Qed.

(** ** The status writes of the queue path *)









(** The run of the counterexample: one item, no call, no status. *)
Example one_isbn_run :
  let r := process_pubsub_message one_isbn two_items in
  PyStr.split "," (data one_isbn) = ["9780131103627"]
  /\ outcome r = Raise (Exn ValueError "too many values to unpack (expected 2)")
  /\ events (final r) = []
  /\ isbn_processing_status (final r) = ∅.
Proof. vm_compute. auto. Qed.

(** ** The scenario of two items, end to end *)

(** The loop over the two items, then the sheet: both statuses are
    [processed], and the four cells written are those of rows 2 and 3,
    columns 5 and 6. *)
Example two_items_end_to_end :
  let batch := [EntryPair "111" (VInt 2); EntryPair "222" (VInt 3)] in
  let run := results <- process_isbn_batch batch ;;
             update_google_sheet results ;;
             check_processing_status "222" in
  let r := run two_items in
  status <$> (isbn_processing_status (final r) !! "111") = Some "processed"
  /\ (exists t, outcome r = Ok (Some {| status := "processed";
                                       timestamp := t |}))
  /\ List.filter delivery_event (events (final r))
     = [EvUpdateCell (VInt 2) 5 "N/A"; EvUpdateCell (VInt 2) 6 "N/A";
        EvUpdateCell (VInt 3) 5 "12.50";
        EvUpdateCell (VInt 3) 6 "Not profitable"]
  /\ logs (final r)
     = [(ERROR, "Timeout error for ISBN 111");
        (ERROR, "Element not found for ISBN 111");
        (INFO, "Updated Google Sheet with 2 results")].
Proof. vm_compute. eauto. Qed.

(** * Further properties of the program *)

(** ** Trimming and splitting *)

Lemma before_has_no_sep sep s :
  PyStr.contains (String sep EmptyString) (before sep s) = false.
Proof.
  induction s as [|c s IH]; simpl before; [reflexivity|].
  destruct (Ascii.eqb c sep) eqn:Hc; [reflexivity|].
  now rewrite contains_char_cons, Hc, IH.
Qed.

Lemma after_first_has_no_sep sep s field :
  after_first sep s = Some field ->
  PyStr.contains (String sep EmptyString) field = false.
Proof.
  induction s as [|c s IH]; simpl; [discriminate|].
  destruct (Ascii.eqb c sep); [|exact IH].
  intros H. inversion H. apply before_has_no_sep.
Qed.

Lemma lstrip_by_without p c s :
  PyStr.contains (String c EmptyString) s = false ->
  PyStr.contains (String c EmptyString) (PyStr.lstrip_by p s) = false.
Proof.
  induction s as [|a s IH]; intros H; [reflexivity|].
  simpl PyStr.lstrip_by. destruct (p a); [|exact H].
  rewrite contains_char_cons in H. apply orb_false_iff in H as [_ H]. auto.
Qed.

Lemma rstrip_by_without p c s :
  PyStr.contains (String c EmptyString) s = false ->
  PyStr.contains (String c EmptyString) (PyStr.rstrip_by p s) = false.
Proof.
  induction s as [|a s IH]; intros H; [reflexivity|].
  rewrite contains_char_cons in H. apply orb_false_iff in H as [Ha H].
  simpl PyStr.rstrip_by.
  destruct (PyStr.falsy (PyStr.rstrip_by p s) && p a); [reflexivity|].
  now rewrite contains_char_cons, Ha, IH.
Qed.

Lemma strip_by_without p c s :
  PyStr.contains (String c EmptyString) s = false ->
  PyStr.contains (String c EmptyString) (PyStr.strip_by p s) = false.
Proof.
  intros H. unfold PyStr.strip_by.
  now apply rstrip_by_without, lstrip_by_without.
Qed.

Lemma rstrip_by_idempotent p s :
  PyStr.rstrip_by p (PyStr.rstrip_by p s) = PyStr.rstrip_by p s.
Proof.
  induction s as [|a s IH]; [reflexivity|]. simpl.
  destruct (PyStr.falsy (PyStr.rstrip_by p s) && p a) eqn:E; [reflexivity|].
  simpl. now rewrite IH, E.
Qed.

Lemma lstrip_by_head p s :
  match PyStr.lstrip_by p s with
  | EmptyString => True
  | String c _ => p c = false
  end.
Proof.
  induction s as [|a s IH]; simpl; [exact I|].
  destruct (p a) eqn:E; [exact IH|exact E].
Qed.

Lemma strip_by_idempotent p s :
  PyStr.strip_by p (PyStr.strip_by p s) = PyStr.strip_by p s.
Proof.
  unfold PyStr.strip_by. pose proof (lstrip_by_head p s) as H.
  destruct (PyStr.lstrip_by p s) as [|c r]; [reflexivity|].
  assert (E : PyStr.rstrip_by p (String c r)
              = String c (PyStr.rstrip_by p r)).
  { simpl. now rewrite H, andb_false_r. }
  rewrite E. simpl PyStr.lstrip_by. rewrite H.
  rewrite <- E. apply rstrip_by_idempotent.
Qed.

(** ** What the extractions return *)

Lemma parse_price_value isbn text w v w' :
  parse_price isbn text w = (Ok v, w') -> v = NA \/ clean_price v.
Proof.
  rewrite parse_price_field.
  destruct (after_first "$" text) as [field|] eqn:Hf; [|discriminate].
  destruct (invalid_value (PyStr.strip field)) eqn:Hv; intros H;
    inversion H; subst; [now left|right].
  split; [exact Hv|]. split.
  - apply strip_by_without. exact (after_first_has_no_sep _ _ _ Hf).
  - apply strip_by_idempotent.
Qed.

Lemma fetch_bookscouter_data_value driver isbn w v w' :
  fetch_bookscouter_data driver isbn w = (Ok v, w') ->
  v = NA \/ clean_price v.
Proof.
  unfold fetch_bookscouter_data, try_except, fetch_bookscouter_body, bind.
  destruct (price_text driver isbn w) as [[text|e] w1].
  - destruct (parse_price isbn text w1) as [[v1|e] w2] eqn:Hp.
    + intros H. inversion H; subst. exact (parse_price_value _ _ _ _ _ Hp).
    + destruct (bookscouter_handlers_na isbn e w2) as [msg ->].
      intros H. inversion H. now left.
  - destruct (bookscouter_handlers_na isbn e w1) as [msg ->].
    intros H. inversion H. now left.
Qed.

(** X1.  Whatever the environment answers, the site-A extraction returns
    either ['N/A'] or a text that begins with a digit, contains no
    currency marker and has no whitespace at either end. *)
Theorem bookscouter_returns_clean_price (driver : nat) (isbn : string)
    (w : World) :
  exists v w',
    fetch_bookscouter_data driver isbn w = (Ok v, w')
    /\ (v = NA \/ clean_price v).
Proof.
  destruct (fetch_bookscouter_data_returns driver isbn w) as (v & w' & E).
  exists v, w'. split; [exact E|].
  exact (fetch_bookscouter_data_value _ _ _ _ _ E).
Qed.

(** X2.  The site-A extraction calls the environment in a fixed order
    (page, settling delay, wait for the price element, its text) and
    stops at the first call that raises: its calls are exactly those up
    to and including the first one the environment answers by raising,
    all four when none raises.  When a call raised, the result is
    ['N/A'] and one error line was logged.  When none raised, either a
    clean price is returned without any log line, or the result is
    ['N/A'] and exactly one line was logged. *)
Theorem bookscouter_call_order (driver : nat) (isbn : string) (w : World) :
  let r := fetch_bookscouter_data driver isbn w in
  let calls := bookscouter_calls driver isbn in
  events (final r)
  = (events w ++ calls_until_raise (oracle w) (tick w) calls)%list
  /\ match first_raise (oracle w) (tick w) calls with
     | Some e =>
         outcome r = Ok NA
         /\ exists msg, logs (final r) = (logs w ++ [(ERROR, msg)])%list
     | None =>
         calls_until_raise (oracle w) (tick w) calls = calls
         /\ ((logs (final r) = logs w
              /\ exists v, outcome r = Ok v /\ clean_price v)
             \/ (outcome r = Ok NA
                 /\ exists l msg,
                     logs (final r) = (logs w ++ [(l, msg)])%list))
     end.
Proof.
  cbv zeta. unfold bookscouter_calls. cbn [calls_until_raise first_raise].
  unfold fetch_bookscouter_data, try_except, fetch_bookscouter_body.
  unfold bind at 1.
  unfold price_text, driver_get, wait_until, element_text.
  cbv [bind extern ret sleep].
  destruct (oracle w (tick w) _) as [t1|e1]; cbn.
  2:{ destruct (bookscouter_handlers_na isbn e1
                  (called (EvGet driver ("https://bookscouter.com/book/" ++ isbn)) w))
        as [msg ->].
      cbn. split; [reflexivity|]. split; [reflexivity|]. eauto. }
  match goal with
  | |- context [match oracle ?a ?b ?c with _ => _ end] =>
      destruct (oracle a b c) as [t2|e2]; cbn
  end.
  2:{ match goal with
      | |- context [fetch_bookscouter_handlers isbn e2 ?w0] =>
          destruct (bookscouter_handlers_na isbn e2 w0) as [msg ->]
      end.
      cbn. rewrite <- !app_assoc. split; [reflexivity|].
      split; [reflexivity|]. eauto. }
  match goal with
  | |- context [match oracle ?a ?b ?c with _ => _ end] =>
      destruct (oracle a b c) as [text|e3]; cbn
  end.
  2:{ match goal with
      | |- context [fetch_bookscouter_handlers isbn e3 ?w0] =>
          destruct (bookscouter_handlers_na isbn e3 w0) as [msg ->]
      end.
      cbn. rewrite <- !app_assoc. split; [reflexivity|].
      split; [reflexivity|]. eauto. }
  match goal with
  | |- context [parse_price isbn text ?w0] => set (w1 := w0)
  end.
  pose proof (parse_price_value isbn text w1) as Hv.
  rewrite parse_price_field in *.
  destruct (after_first "$" text) as [field|].
  - destruct (invalid_value (PyStr.strip field)) eqn:Hi; cbn.
    + rewrite <- !app_assoc. split; [reflexivity|]. split; [reflexivity|].
      right. split; [reflexivity|]. eauto.
    + rewrite <- !app_assoc. split; [reflexivity|]. split; [reflexivity|].
      left. split; [reflexivity|].
      exists (PyStr.strip field). split; [reflexivity|].
      destruct (Hv _ _ eq_refl) as [Hna|Hc]; [|exact Hc].
      rewrite Hna in Hi. discriminate Hi.
  - destruct (bookscouter_handlers_na isbn
                (Exn IndexError "list index out of range") w1) as [msg ->].
    cbn. rewrite <- !app_assoc. split; [reflexivity|].
    split; [reflexivity|]. right. split; [reflexivity|]. eauto.
Qed.

Lemma probe_value driver w v w' :
  not_profitable_probe driver w = (Ok (Some v), w') -> v = NOT_PROFITABLE.
Proof.
  unfold not_profitable_probe, wait_until, element_text.
  cbv [try_except bind extern ret raise].
  destruct (oracle w (tick w) _) as [t|e]; cbn.
  - match goal with
    | |- context [match oracle ?a ?b ?c with _ => _ end] =>
        destruct (oracle a b c) as [text|e]; cbn
    end.
    + destruct (PyStr.contains NOT_PROFITABLE_PHRASE text); intros H;
        inversion H; reflexivity.
    + destruct (exn_cls e); intros H; inversion H.
  - destruct (exn_cls e); intros H; inversion H.
Qed.

Lemma parse_profit_value text w v w' :
  parse_profit text w = (Ok v, w') -> v = NA \/ clean_profit v.
Proof.
  unfold parse_profit, ret.
  destruct (invalid_value (PyStr.strip_chars "$" text)) eqn:Hv; intros H;
    inversion H; subst; [now left|right].
  split; [exact Hv|]. apply strip_by_idempotent.
Qed.

Lemma fetch_restricted_inventory_data_value driver isbn w v w' :
  fetch_restricted_inventory_data driver isbn w = (Ok v, w') ->
  v = NA \/ v = NOT_PROFITABLE \/ clean_profit v.
Proof.
  unfold fetch_restricted_inventory_data, try_except.
  destruct (fetch_restricted_inventory_body driver isbn w) as [[v1|e] w1]
    eqn:Hb.
  - intros H. inversion H; subst. clear H.
    unfold fetch_restricted_inventory_body, bind in Hb.
    destruct (search_isbn driver isbn w) as [[u|e] w2]; [|discriminate].
    destruct (not_profitable_probe driver w2) as [[[early|]|e] w3] eqn:Hp;
      [| |discriminate].
    + inversion Hb; subst. right. left. exact (probe_value _ _ _ _ Hp).
    + destruct (profit_text driver w3) as [[text|e] w4]; [|discriminate].
      destruct (parse_profit_value _ _ _ _ Hb) as [?|?]; auto.
  - destruct (restricted_inventory_handlers_na isbn e w1) as [msg ->].
    intros H. inversion H. now left.
Qed.

(** X3.  Whatever the environment answers, the site-B extraction returns
    ['N/A'], ['Not profitable'], or a text that begins with a digit and
    neither begins nor ends with a currency marker. *)
Theorem restricted_inventory_returns_sentinel_or_profit (driver : nat)
    (isbn : string) (w : World) :
  exists v w',
    fetch_restricted_inventory_data driver isbn w = (Ok v, w')
    /\ (v = NA \/ v = NOT_PROFITABLE \/ clean_profit v).
Proof.
  destruct (fetch_restricted_inventory_data_returns driver isbn w)
    as (v & w' & E).
  exists v, w'. split; [exact E|].
  exact (fetch_restricted_inventory_data_value _ _ _ _ _ E).
Qed.

Lemma fetch_restricted_inventory_data_after_probe driver isbn w w1 w2 :
  search_isbn driver isbn w = (Ok tt, w1) ->
  not_profitable_probe driver w1 = (Ok None, w2) ->
  fetch_restricted_inventory_data driver isbn w = profit_part driver isbn w2.
Proof.
  intros Hs Hp.
  unfold fetch_restricted_inventory_data, fetch_restricted_inventory_body,
    profit_part, try_except.
  now rewrite (bind_ok _ _ _ _ _ Hs), (bind_ok _ _ _ _ _ Hp).
Qed.

(** X4.  When the search of site B has been made, the probe has fallen
    through and the profit text, stripped of the currency marker at both
    ends, begins with a digit, the site-B extraction returns that
    stripped text, in the state in which the profit text was read. *)
Theorem profit_stripped_of_markers (driver : nat) (isbn : string)
    (w w1 w2 w3 : World) (text : string) :
  search_isbn driver isbn w = (Ok tt, w1) ->
  not_profitable_probe driver w1 = (Ok None, w2) ->
  profit_text driver w2 = (Ok text, w3) ->
  invalid_value (PyStr.strip_chars "$" text) = false ->
  fetch_restricted_inventory_data driver isbn w
  = (Ok (PyStr.strip_chars "$" text), w3)
  /\ clean_profit (PyStr.strip_chars "$" text).
Proof.
  intros Hs Hp Ht Hv. split.
  - rewrite (fetch_restricted_inventory_data_parses _ _ _ _ _ _ _ Hs Hp Ht).
    now rewrite Hv.
  - split; [exact Hv|]. apply strip_by_idempotent.
Qed.

Lemma profit_stripped_of_markers_witness :
  let w := profitable in
  let w1 := final (search_isbn 0 "9780131103627" w) in
  let w2 := final (not_profitable_probe 0 w1) in
  let w3 := final (profit_text 0 w2) in
  search_isbn 0 "9780131103627" w = (Ok tt, w1)
  /\ not_profitable_probe 0 w1 = (Ok None, w2)
  /\ profit_text 0 w2 = (Ok "$12.50", w3)
  /\ invalid_value (PyStr.strip_chars "$" "$12.50") = false
  /\ fetch_restricted_inventory_data 0 "9780131103627" w = (Ok "12.50", w3)
  /\ clean_profit "12.50".
Proof.
  intros w w1 w2 w3. do 4 (split; [reflexivity|]).
  apply (profit_stripped_of_markers 0 "9780131103627" w w1 w2 w3 "$12.50");
    reflexivity.
Defined.

Lemma probe_answers driver w :
  let w2 := called (indicator_wait driver) w in
  let w3 := called (EvText (indicator driver)) w2 in
  not_profitable_probe driver w
  = match oracle w (tick w) (indicator_wait driver) with
    | Raises e =>
        if absorbed_by_probe e then (Ok None, w2) else (Raise e, w2)
    | Returns _ =>
        match oracle w2 (tick w2) (EvText (indicator driver)) with
        | Raises e =>
            if absorbed_by_probe e then (Ok None, w3) else (Raise e, w3)
        | Returns text =>
            (if PyStr.contains NOT_PROFITABLE_PHRASE text
             then Ok (Some NOT_PROFITABLE) else Ok None, w3)
        end
    end.
Proof.
  intros w2 w3. subst w3 w2.
  unfold not_profitable_probe, wait_until, element_text, indicator_wait,
    indicator, absorbed_by_probe.
  cbv [try_except bind extern ret raise].
  destruct (oracle w (tick w) _) as [t|e].
  - match goal with
    | |- context [oracle (called ?ev w) ?b ?c] =>
        destruct (oracle (called ev w) b c) as [text|e]
    end.
    + destruct (PyStr.contains NOT_PROFITABLE_PHRASE text); reflexivity.
    + destruct (exn_cls e); reflexivity.
  - destruct (exn_cls e); reflexivity.
Qed.

(** X5.  The probe falls through in three cases: the wait for the
    indicator raises a timeout or a missing element, the reading of the
    indicator text raises one of these, or the text read does not
    contain the phrase.  In each the site-B extraction goes on with the
    profit element, from the state the probe left. *)
Theorem absent_indicator_reads_profit (driver : nat) (isbn : string)
    (w w1 : World) :
  search_isbn driver isbn w = (Ok tt, w1) ->
  let w2 := called (indicator_wait driver) w1 in
  let w3 := called (EvText (indicator driver)) w2 in
  match oracle w1 (tick w1) (indicator_wait driver) with
  | Raises e =>
      absorbed_by_probe e = true ->
      fetch_restricted_inventory_data driver isbn w
      = profit_part driver isbn w2
  | Returns _ =>
      match oracle w2 (tick w2) (EvText (indicator driver)) with
      | Raises e =>
          absorbed_by_probe e = true ->
          fetch_restricted_inventory_data driver isbn w
          = profit_part driver isbn w3
      | Returns text =>
          PyStr.contains NOT_PROFITABLE_PHRASE text = false ->
          fetch_restricted_inventory_data driver isbn w
          = profit_part driver isbn w3
      end
  end.
Proof.
  intros Hs w2 w3.
  assert (P : forall w', not_profitable_probe driver w1 = (Ok None, w') ->
                fetch_restricted_inventory_data driver isbn w
                = profit_part driver isbn w').
  { intros w'. apply fetch_restricted_inventory_data_after_probe, Hs. }
  rewrite probe_answers in P. fold w2 w3 in P.
  destruct (oracle w1 (tick w1) (indicator_wait driver)) as [t|e].
  - destruct (oracle w2 (tick w2) (EvText (indicator driver))) as [text|e].
    + intros Hc. rewrite Hc in P. now apply P.
    + intros He. rewrite He in P. now apply P.
  - intros He. rewrite He in P. now apply P.
Qed.

Lemma absent_indicator_reads_profit_witness :
  let w := profitable in
  let w1 := final (search_isbn 0 "9780131103627" w) in
  search_isbn 0 "9780131103627" w = (Ok tt, w1)
  /\ oracle w1 (tick w1) (indicator_wait 0)
     = Raises (Exn TimeoutException "Message: ")
  /\ absorbed_by_probe (Exn TimeoutException "Message: ") = true
  /\ fetch_restricted_inventory_data 0 "9780131103627" w
     = profit_part 0 "9780131103627" (called (indicator_wait 0) w1)
  /\ outcome (fetch_restricted_inventory_data 0 "9780131103627" w)
     = Ok "12.50".
Proof.
  intros w w1. do 3 (split; [reflexivity|]).
  split; [|reflexivity].
  exact (absent_indicator_reads_profit 0 "9780131103627" w w1
           eq_refl eq_refl).
Defined.

(** X6.  An exception of the probe that is neither a timeout nor a
    missing element (a stale element reference, say) is not absorbed by
    the inner handler: the site-B extraction returns ['N/A'] after one
    logged error, from the state in which the exception was raised, and
    does not wait for the profit element. *)
Theorem probe_failure_is_unavailable (driver : nat) (isbn : string)
    (w w1 : World) :
  search_isbn driver isbn w = (Ok tt, w1) ->
  let w2 := called (indicator_wait driver) w1 in
  let w3 := called (EvText (indicator driver)) w2 in
  match oracle w1 (tick w1) (indicator_wait driver) with
  | Raises e =>
      absorbed_by_probe e = false ->
      exists msg, fetch_restricted_inventory_data driver isbn w
                  = (Ok NA, final (logging ERROR msg w2))
  | Returns _ =>
      match oracle w2 (tick w2) (EvText (indicator driver)) with
      | Raises e =>
          absorbed_by_probe e = false ->
          exists msg, fetch_restricted_inventory_data driver isbn w
                      = (Ok NA, final (logging ERROR msg w3))
      | Returns _ => True
      end
  end.
Proof.
  intros Hs w2 w3.
  assert (P : forall e w', not_profitable_probe driver w1 = (Raise e, w') ->
                exists msg, fetch_restricted_inventory_data driver isbn w
                            = (Ok NA, final (logging ERROR msg w'))).
  { intros e w' Hp.
    unfold fetch_restricted_inventory_data, fetch_restricted_inventory_body,
      try_except.
    rewrite (bind_ok _ _ _ _ _ Hs), (bind_raise _ _ _ _ _ Hp).
    apply restricted_inventory_handlers_na. }
  pose proof (probe_answers driver w1) as A. cbv zeta in A. fold w2 w3 in A.
  destruct (oracle w1 (tick w1) (indicator_wait driver)) as [t|e].
  - destruct (oracle w2 (tick w2) (EvText (indicator driver))) as [text|e];
      [exact I|].
    intros He. rewrite He in A. exact (P _ _ A).
  - intros He. rewrite He in A. exact (P _ _ A).
Qed.

Lemma probe_failure_is_unavailable_witness :
  let w := stale_indicator in
  let w1 := final (search_isbn 0 "9780131103627" w) in
  let w2 := called (indicator_wait 0) w1 in
  let w3 := called (EvText (indicator 0)) w2 in
  search_isbn 0 "9780131103627" w = (Ok tt, w1)
  /\ oracle w2 (tick w2) (EvText (indicator 0))
     = Raises (Exn StaleElementReferenceException "Message: ")
  /\ absorbed_by_probe (Exn StaleElementReferenceException "Message: ")
     = false
  /\ exists msg, fetch_restricted_inventory_data 0 "9780131103627" w
                 = (Ok NA, final (logging ERROR msg w3)).
Proof.
  intros w w1 w2 w3. do 3 (split; [reflexivity|]).
  exact (probe_failure_is_unavailable 0 "9780131103627" w w1
           eq_refl eq_refl).
Defined.

(** ** The item processor *)

Lemma process_isbn_value isbn row w r w' :
  process_isbn isbn row w = (Ok r, w') ->
  ISBN r = isbn /\ RowIndex r = row
  /\ (BookScouter r = NA \/ clean_price (BookScouter r))
  /\ (RestrictedInventory r = NA \/ RestrictedInventory r = NOT_PROFITABLE
      \/ clean_profit (RestrictedInventory r)).
Proof.
  destruct (init_driver w) as [[d|e] w0] eqn:Hi.
  - unfold process_isbn. rewrite (process_isbn_with_quits _ _ _ _ _ _ _ Hi).
    destruct (extract_both_returns d isbn row w0)
      as (a & b & wa & wb & Ea & Eb & Eab).
    rewrite Eab. cbn.
    destruct (oracle wb (tick wb) (EvQuit d)); [|discriminate].
    intros H. inversion H; subst. cbn. repeat split.
    + exact (fetch_bookscouter_data_value _ _ _ _ _ Ea).
    + exact (fetch_restricted_inventory_data_value _ _ _ _ _ Eb).
  - unfold process_isbn, process_isbn_with.
    rewrite (bind_raise _ _ _ _ _ Hi). discriminate.
Qed.

(** X7.  Whenever [process_isbn] returns, the result carries the ISBN
    and the row index it was given, unchanged; its site-A value is
    ['N/A'] or a clean price, and its site-B value is ['N/A'],
    ['Not profitable'] or a clean profit. *)
Theorem processing_result_fields (isbn : string) (row_index : pyval)
    (w w' : World) (r : ProcessingResult) :
  process_isbn isbn row_index w = (Ok r, w') ->
  ISBN r = isbn
  /\ RowIndex r = row_index
  /\ (BookScouter r = NA \/ clean_price (BookScouter r))
  /\ (RestrictedInventory r = NA
      \/ RestrictedInventory r = NOT_PROFITABLE
      \/ clean_profit (RestrictedInventory r)).
Proof.
  intros H. destruct (process_isbn_value _ _ _ _ _ H) as (Hi & Hr & Ha & Hb).
  repeat split; assumption.
Qed.

Lemma processing_result_fields_witness :
  let r := {| ISBN := "111"; BookScouter := "N/A";
              RestrictedInventory := "N/A"; RowIndex := VInt 2 |} in
  let w' := final (process_isbn "111" (VInt 2) two_items) in
  process_isbn "111" (VInt 2) two_items = (Ok r, w')
  /\ ISBN r = "111"
  /\ RowIndex r = VInt 2
  /\ (BookScouter r = NA \/ clean_price (BookScouter r))
  /\ (RestrictedInventory r = NA
      \/ RestrictedInventory r = NOT_PROFITABLE
      \/ clean_profit (RestrictedInventory r)).
Proof.
  intros r w'.
  assert (E : process_isbn "111" (VInt 2) two_items = (Ok r, w'))
    by (vm_compute; reflexivity).
  split; [exact E|].
  exact (processing_result_fields "111" (VInt 2) two_items w' r E).
Defined.

(** X8.  A failure to start the session is not guarded.  When
    [init_driver] raises, [process_isbn] raises the same exception from
    the same state, without any extraction and without [quit]: either the
    launch of the browser raised and is the only call made, or the launch
    returned and the setting of the page-load timeout raised, in which
    case the session that was launched is left without [quit]. *)
Theorem session_start_failure_propagates (isbn : string) (row_index : pyval)
    (w w0 : World) (e : exn) :
  init_driver w = (Raise e, w0) ->
  process_isbn isbn row_index w = (Raise e, w0)
  /\ ((events w0 = (events w ++ [chrome_launch])%list
       /\ sessions w0 = sessions w)
      \/ (events w0
          = (events w
             ++ [chrome_launch;
                 EvSetPageLoadTimeout (sessions w) PAGE_LOAD_TIMEOUT])%list
          /\ sessions w0 = S (sessions w))).
Proof.
  intros Hi. split.
  - unfold process_isbn, process_isbn_with.
    now rewrite (bind_raise _ _ _ _ _ Hi).
  - destruct (init_driver_raises _ _ _ Hi)
      as (_ & [(_ & -> & Hs) | (_ & _ & He & Hs)]).
    + left. split; [reflexivity|exact Hs].
    + right. split; assumption.
Qed.

Lemma session_start_failure_propagates_witness :
  let e := Exn WebDriverException "Message: disconnected" in
  let w := no_page_load_timeout in
  let w0 := final (init_driver w) in
  init_driver w = (Raise e, w0)
  /\ process_isbn "9780131103627" (VInt 2) w = (Raise e, w0)
  /\ events w0 = [chrome_launch; EvSetPageLoadTimeout 0 PAGE_LOAD_TIMEOUT]
  /\ sessions w0 = 1.
Proof.
  intros e w w0. split; [reflexivity|].
  destruct (session_start_failure_propagates "9780131103627" (VInt 2)
              w w0 e eq_refl) as [H _].
  split; [exact H|]. split; reflexivity.
Defined.

(** X9.  A failure of [quit] discards the result.  When the session was
    started and both extractions have returned, if [quit] raises then
    [process_isbn] raises that exception and returns no result. *)
Theorem quit_failure_discards_result (isbn : string) (row_index : pyval)
    (w w0 : World) (d : nat) (e : exn) :
  init_driver w = (Ok d, w0) ->
  let ab := extract_both fetch_bookscouter_data
              fetch_restricted_inventory_data d isbn row_index w0 in
  oracle (final ab) (tick (final ab)) (EvQuit d) = Raises e ->
  (exists r, outcome ab = Ok r)
  /\ process_isbn isbn row_index w = (Raise e, called (EvQuit d) (final ab)).
Proof.
  intros Hi ab Hq. split.
  - destruct (extract_both_returns d isbn row_index w0)
      as (a & b & wa & wb & _ & _ & Eab).
    subst ab. rewrite Eab. eauto.
  - unfold process_isbn. rewrite (process_isbn_with_quits _ _ _ _ _ _ _ Hi).
    cbv zeta. fold ab. now rewrite Hq.
Qed.

Lemma quit_failure_discards_result_witness :
  let e := Exn WebDriverException "Message: invalid session id" in
  let w := quit_fails in
  let w0 := final (init_driver w) in
  let ab := extract_both fetch_bookscouter_data
              fetch_restricted_inventory_data 0 "9780131103627" (VInt 2) w0 in
  init_driver w = (Ok 0, w0)
  /\ oracle (final ab) (tick (final ab)) (EvQuit 0) = Raises e
  /\ outcome ab = Ok {| ISBN := "9780131103627"; BookScouter := "7.25";
                        RestrictedInventory := "7.25"; RowIndex := VInt 2 |}
  /\ process_isbn "9780131103627" (VInt 2) w
     = (Raise e, called (EvQuit 0) (final ab)).
Proof.
  intros e w w0 ab. do 3 (split; [reflexivity|]).
  exact (proj2 (quit_failure_discards_result "9780131103627" (VInt 2)
                  w w0 0 e eq_refl eq_refl)).
Defined.

(** X10.  An exception that leaves [process_isbn] was raised by the
    launch of the browser, by the setting of its page-load timeout or by
    [quit], never by an extraction: the last call of such a run is one of
    these three, and the exception is the answer of the environment to
    that call. *)
Theorem only_the_session_can_fail (isbn : string) (row_index : pyval)
    (w w' : World) (e : exn) :
  process_isbn isbn row_index w = (Raise e, w') ->
  exists t ev,
    events w' = (events w ++ t ++ [ev])%list
    /\ lifecycle_event ev = true
    /\ oracle w (pred (tick w')) ev = Raises e.
Proof.
  destruct (init_driver w) as [[d|e0] w0] eqn:Hi.
  - unfold process_isbn. rewrite (process_isbn_with_quits _ _ _ _ _ _ _ Hi).
    destruct (extract_both_returns d isbn row_index w0)
      as (a & b & wa & wb & Ea & Eb & Eab).
    rewrite Eab. cbn.
    destruct (init_driver_ok _ _ _ Hi) as (_ & Ho0 & He0).
    destruct (emits_fetch_bookscouter_data d isbn w0) as [Hoa (ta & Hta & _)].
    rewrite Ea in Hoa, Hta. cbn in Hoa, Hta.
    destruct (emits_fetch_restricted_inventory_data d isbn wa)
      as [Hob (tb & Htb & _)].
    rewrite Eb in Hob, Htb. cbn in Hob, Htb.
    destruct (oracle wb (tick wb) (EvQuit d)) as [t|e1] eqn:Hq;
      [discriminate|].
    intros H. inversion H; subst. cbn.
    exists ([chrome_launch; EvSetPageLoadTimeout d PAGE_LOAD_TIMEOUT]
            ++ ta ++ tb)%list, (EvQuit d).
    split; [|split; [reflexivity|]].
    + rewrite Htb, Hta, He0. now rewrite <- !app_assoc.
    + rewrite <- Hq. congruence.
  - unfold process_isbn, process_isbn_with.
    rewrite (bind_raise _ _ _ _ _ Hi). intros H. inversion H; subst.
    destruct (init_driver_raises _ _ _ Hi)
      as (_ & [(Hl & -> & _) | (Ht & Htick & He & _)]).
    + exists [], chrome_launch. repeat split; auto.
    + exists [chrome_launch],
        (EvSetPageLoadTimeout (sessions w) PAGE_LOAD_TIMEOUT).
      rewrite Htick. repeat split; auto.
Qed.

Lemma only_the_session_can_fail_witness :
  let e := Exn WebDriverException "Message: invalid session id" in
  let w := quit_fails in
  let w' := final (process_isbn "9780131103627" (VInt 2) w) in
  process_isbn "9780131103627" (VInt 2) w = (Raise e, w')
  /\ exists t ev,
      events w' = (events w ++ t ++ [ev])%list
      /\ lifecycle_event ev = true
      /\ oracle w (pred (tick w')) ev = Raises e.
Proof.
  intros e w w'.
  assert (E : process_isbn "9780131103627" (VInt 2) w = (Raise e, w'))
    by (vm_compute; reflexivity).
  split; [exact E|].
  exact (only_the_session_can_fail "9780131103627" (VInt 2) w w' e E).
Defined.

(** ** The sheet reconciler *)

Lemma sheet_writes_length results :
  length (sheet_writes results) = 2 * length results.
Proof.
  unfold sheet_writes.
  induction results as [|r rest IH]; [reflexivity|].
  cbn [flat_map]. rewrite length_app, IH. cbn [length]. lia.
Qed.

Lemma update_google_sheet_loop_calls results :
  forall w,
    let r := update_google_sheet_loop results w in
    exists n,
      events (final r) = (events w ++ firstn n (sheet_writes results))%list
      /\ logs (final r) = logs w
      /\ same_store w (final r)
      /\ oracle (final r) = oracle w
      /\ match outcome r with
         | Ok _ => n = length (sheet_writes results)
         | Raise e =>
             1 <= n <= length (sheet_writes results)
             /\ exists k ev, cell_write ev = true /\ oracle w k ev = Raises e
         end.
Proof.
  induction results as [|r rest IH]; intros w; cbv zeta.
  - exists 0. cbn. rewrite app_nil_r. repeat split.
  - cbn [update_google_sheet_loop sheet_writes flat_map].
    unfold update_cell. cbv [bind extern ret].
    destruct (oracle w (tick w) _) as [t1|e1] eqn:E1; cbn.
    2:{ exists 1. cbn. repeat split; auto; try lia.
        do 2 eexists. split; [|exact E1]. reflexivity. }
    match goal with
    | |- context [match oracle ?a ?b ?c with _ => _ end] =>
        destruct (oracle a b c) as [t2|e2] eqn:E2; cbn
    end.
    2:{ exists 2. cbn. rewrite <- app_assoc. repeat split; auto; try lia.
        do 2 eexists. split; [|exact E2]. reflexivity. }
    match goal with
    | |- context [update_google_sheet_loop rest ?w0] =>
        specialize (IH w0); cbv zeta in IH; set (w2 := w0) in *
    end.
    destruct IH as (n & He & Hl & Hs & Ho & Hout).
    exists (S (S n)). fold (sheet_writes rest).
    unfold final, outcome in *.
    destruct (update_google_sheet_loop rest w2) as [[u|e] w3]; cbn in *.
    + split; [rewrite He; now rewrite <- !app_assoc|].
      split; [exact Hl|]. split; [exact Hs|]. split; [exact Ho|]. lia.
    + split; [rewrite He; now rewrite <- !app_assoc|].
      split; [exact Hl|]. split; [exact Hs|]. split; [exact Ho|].
      destruct Hout as (Hn & k & ev & Hc & Hk).
      split; [lia|]. exists k, ev. split; [exact Hc|exact Hk].
Qed.

Lemma update_google_sheet_loop_stops results :
  forall w,
    let r := update_google_sheet_loop results w in
    let writes := sheet_writes results in
    events (final r)
    = (events w ++ calls_until_raise (oracle w) (tick w) writes)%list
    /\ logs (final r) = logs w
    /\ match first_raise (oracle w) (tick w) writes with
       | Some e => outcome r = Raise e
       | None =>
           outcome r = Ok tt
           /\ calls_until_raise (oracle w) (tick w) writes = writes
       end.
Proof.
  induction results as [|r rest IH]; intros w; cbv zeta.
  - cbn. rewrite app_nil_r. repeat split.
  - cbn [update_google_sheet_loop sheet_writes flat_map app
         calls_until_raise first_raise].
    fold (sheet_writes rest).
    unfold update_cell. cbv [bind extern ret].
    destruct (oracle w (tick w) _) as [t1|e1]; cbn; [|repeat split].
    match goal with
    | |- context [match oracle ?a ?b ?c with _ => _ end] =>
        destruct (oracle a b c) as [t2|e2]; cbn
    end; [|rewrite <- !app_assoc; repeat split].
    match goal with
    | |- context [update_google_sheet_loop rest ?w0] =>
        specialize (IH w0); cbv zeta in IH; cbn [oracle tick called] in IH;
        set (w2 := w0) in *
    end.
    destruct IH as (He & Hl & Hout).
    split; [rewrite He; cbn; now rewrite <- !app_assoc|].
    split; [exact Hl|].
    destruct (first_raise (oracle w) (S (S (tick w))) (sheet_writes rest));
      [exact Hout|].
    destruct Hout as [Ho Hc]. split; [exact Ho|]. now rewrite Hc.
Qed.

(** X11.  Whatever the environment answers, [update_google_sheet] writes
    the cells in the order of the results, for each result column 5 (the
    site-A value) then column 6 (the site-B value) of its row, and stops
    at the first write that raises: its calls are exactly the writes up
    to and including the first one the environment answers by raising,
    all of them when none raises.  When a write raised, that exception
    leaves the function and nothing was logged; otherwise every write
    was made, the one line is logged and the function returns.  The
    status collection is never changed. *)
Theorem sheet_update_stops_at_first_failure
    (results : list ProcessingResult) (w : World) :
  let r := update_google_sheet results w in
  let writes := sheet_writes results in
  events (final r)
  = (events w ++ calls_until_raise (oracle w) (tick w) writes)%list
  /\ same_store w (final r)
  /\ match first_raise (oracle w) (tick w) writes with
     | Some e => outcome r = Raise e /\ logs (final r) = logs w
     | None =>
         outcome r = Ok tt
         /\ calls_until_raise (oracle w) (tick w) writes = writes
         /\ length writes = 2 * length results
         /\ logs (final r) = (logs w ++ [sheet_log results])%list
     end.
Proof.
  cbv zeta. unfold update_google_sheet, bind.
  destruct (update_google_sheet_loop_stops results w) as (He & Hl & Hout).
  destruct (update_google_sheet_loop_calls results w)
    as (_ & _ & _ & Hs & _).
  unfold final, outcome in *.
  destruct (update_google_sheet_loop results w) as [[u|e] w1];
    cbn [fst snd] in *.
  - split; [exact He|]. split; [exact Hs|].
    destruct (first_raise _ _ _); [discriminate Hout|].
    destruct Hout as [_ Hc]. destruct u.
    split; [reflexivity|]. split; [exact Hc|].
    split; [apply sheet_writes_length|].
    unfold logging, sheet_log. cbn [snd logs]. now rewrite Hl.
  - split; [exact He|]. split; [exact Hs|].
    destruct (first_raise _ _ _) as [e'|]; [|now destruct Hout].
    split; [exact Hout|exact Hl].
Qed.

(** The third write fails: the two cells of the first result are
    written, the first cell of the second is attempted, nothing is
    logged. *)
Example third_write_fails_run :
  let r := update_google_sheet two_results third_write_fails in
  outcome r = Raise (Exn OtherException "APIError: quota exceeded")
  /\ events (final r)
     = [EvUpdateCell (VInt 2) 5 "N/A"; EvUpdateCell (VInt 2) 6 "N/A";
        EvUpdateCell (VInt 3) 5 "12.50"]
  /\ logs (final r) = [].
Proof. repeat split. Qed.

(** The third write fails: the calls stop there. *)
Example third_write_is_the_last_call :
  calls_until_raise (oracle third_write_fails) 0 (sheet_writes two_results)
  = [EvUpdateCell (VInt 2) 5 "N/A"; EvUpdateCell (VInt 2) 6 "N/A";
     EvUpdateCell (VInt 3) 5 "12.50"]
  /\ first_raise (oracle third_write_fails) 0 (sheet_writes two_results)
     = Some (Exn OtherException "APIError: quota exceeded").
Proof. split; reflexivity. Qed.

(** X12.  When the sheet accepts every write, [update_google_sheet]
    returns after exactly two writes per result, in order, and logs the
    number of results. *)
Theorem sheet_receives_two_cells_per_result
    (results : list ProcessingResult) (w : World) :
  reliable cell_write (oracle w) ->
  exists w',
    update_google_sheet results w = (Ok tt, w')
    /\ events w' = (events w ++ sheet_writes results)%list
    /\ length (sheet_writes results) = 2 * length results
    /\ logs w'
       = (logs w
          ++ [sheet_log results])%list
    /\ oracle w' = oracle w.
Proof.
  intros Hr. unfold update_google_sheet, bind.
  destruct (update_google_sheet_loop_calls results w)
    as (n & He & Hl & _ & Ho & Hout).
  unfold final, outcome in *.
  destruct (update_google_sheet_loop results w) as [[[]|e] w1];
    cbn [fst snd] in *.
  - subst n. rewrite firstn_all in He.
    eexists. split; [reflexivity|]. unfold sheet_log. cbn [events logs oracle].
    split; [exact He|]. split; [apply sheet_writes_length|].
    split; [now rewrite Hl|exact Ho].
  - destruct Hout as (_ & k & ev & Hc & Hk).
    destruct (Hr k ev Hc) as [text Ht]. congruence.
Qed.

Lemma sheet_receives_two_cells_per_result_witness :
  reliable cell_write (oracle two_items)
  /\ exists w',
      update_google_sheet two_results two_items = (Ok tt, w')
      /\ events w' = (events two_items ++ sheet_writes two_results)%list
      /\ length (sheet_writes two_results) = 2 * length two_results
      /\ logs w'
         = (logs two_items
            ++ [sheet_log two_results])%list
      /\ oracle w' = oracle two_items.
Proof.
  assert (Hr : reliable cell_write (oracle two_items)).
  { intros n ev H. destruct ev; try discriminate H. eexists. reflexivity. }
  split; [exact Hr|].
  exact (sheet_receives_two_cells_per_result two_results two_items Hr).
Defined.

(** ** The status tracker, read and write *)

Lemma check_processing_status_reliable isbn w :
  reliable store_event (oracle w) ->
  check_processing_status isbn w
  = (Ok (isbn_processing_status w !! isbn),
     called (EvDocGet "isbn_processing_status" isbn)
       (called EvFirestoreClient w)).
Proof.
  intros Hr. unfold check_processing_status, bind, extern.
  destruct (Hr (tick w) EvFirestoreClient eq_refl) as [t1 ->]. cbn.
  destruct (Hr (S (tick w)) (EvDocGet "isbn_processing_status" isbn)
              eq_refl) as [t2 ->].
  reflexivity.
Qed.

(** X13.  Reading back what was written.  In an environment where the
    status store works, [check_processing_status] called after
    [update_processing_status] for the same ISBN returns the document
    with the status just written; called for another ISBN it returns
    what the collection held for that ISBN before the write, [None] when
    it held nothing. *)
Theorem mark_then_check (isbn other st : string) (w : World) :
  reliable store_event (oracle w) ->
  isbn <> other ->
  let w1 := final (update_processing_status isbn st w) in
  (exists t,
      outcome (check_processing_status isbn w1)
      = Ok (Some {| status := st; timestamp := t |}))
  /\ outcome (check_processing_status other w1)
     = Ok (isbn_processing_status w !! other).
Proof.
  intros Hr Hne w1. subst w1.
  rewrite (update_processing_status_reliable isbn st w Hr). cbn [final snd].
  set (w1 := stored isbn st _).
  assert (Hr1 : reliable store_event (oracle w1)) by exact Hr.
  rewrite !(check_processing_status_reliable _ w1 Hr1). cbn [outcome fst].
  subst w1. cbn. split.
  - eexists. now rewrite lookup_insert_eq.
  - now rewrite lookup_insert_ne.
Qed.

Lemma mark_then_check_witness :
  let w1 := final (update_processing_status "111" "processed" two_items) in
  reliable store_event (oracle two_items)
  /\ "111" <> "222"
  /\ (exists t,
        outcome (check_processing_status "111" w1)
        = Ok (Some {| status := "processed"; timestamp := t |}))
  /\ outcome (check_processing_status "222" w1) = Ok None.
Proof.
  intros w1.
  assert (Hne : "111" <> "222") by discriminate.
  split; [exact two_items_store_reliable|]. split; [exact Hne|].
  exact (mark_then_check "111" "222" "processed" two_items
           two_items_store_reliable Hne).
Defined.

(** X14.  The last write wins, whatever the statuses.  In an environment
    where the status store works, after two calls of
    [update_processing_status] for the same ISBN with two statuses, the
    collection holds for that ISBN one document with the second status,
    and is otherwise the collection of before the calls. *)
Theorem last_status_wins (isbn st1 st2 : string) (w : World) :
  reliable store_event (oracle w) ->
  let w1 := final (update_processing_status isbn st1 w) in
  let w2 := final (update_processing_status isbn st2 w1) in
  exists t1 t2,
    isbn_processing_status w1 !! isbn
    = Some {| status := st1; timestamp := t1 |}
    /\ t1 < t2
    /\ isbn_processing_status w2
       = <[isbn := {| status := st2; timestamp := t2 |}]>
           (isbn_processing_status w)
    /\ outcome (check_processing_status isbn w2)
       = Ok (Some {| status := st2; timestamp := t2 |}).
Proof.
  intros Hr w1 w2. subst w2 w1.
  rewrite (update_processing_status_reliable isbn st1 w Hr). cbn [final snd].
  set (w1 := stored isbn st1 _).
  assert (Hr1 : reliable store_event (oracle w1)) by exact Hr.
  rewrite (update_processing_status_reliable isbn st2 w1 Hr1).
  cbn [final snd]. set (w2 := stored isbn st2 _).
  assert (Hr2 : reliable store_event (oracle w2)) by exact Hr.
  rewrite (check_processing_status_reliable isbn w2 Hr2). cbn [outcome fst].
  exists (S (S (now w))), (S (S (S (S (now w))))). subst w2 w1. cbn.
  split; [apply lookup_insert_eq|]. split; [lia|]. split.
  - apply insert_insert_eq.
  - now rewrite lookup_insert_eq.
Qed.

Lemma last_status_wins_witness :
  let w1 := final (update_processing_status "111" "failed" two_items) in
  let w2 := final (update_processing_status "111" "processed" w1) in
  reliable store_event (oracle two_items)
  /\ exists t1 t2,
      isbn_processing_status w1 !! "111"
      = Some {| status := "failed"; timestamp := t1 |}
      /\ t1 < t2
      /\ isbn_processing_status w2
         = <["111" := {| status := "processed"; timestamp := t2 |}]>
             (isbn_processing_status two_items)
      /\ outcome (check_processing_status "111" w2)
         = Ok (Some {| status := "processed"; timestamp := t2 |}).
Proof.
  intros w1 w2. split; [exact two_items_store_reliable|].
  exact (last_status_wins "111" "failed" "processed" two_items
           two_items_store_reliable).
Defined.

(** X15.  Whatever the environment answers and whether the calls return
    or raise, [update_processing_status] leaves the documents of every
    other ISBN as they were, and [check_processing_status] leaves the
    whole collection as it was. *)
Theorem status_calls_are_isolated (isbn other st : string) (w : World) :
  isbn <> other ->
  isbn_processing_status (final (update_processing_status isbn st w))
  !! other = isbn_processing_status w !! other
  /\ same_store w (final (check_processing_status isbn w)).
Proof.
  intros Hne. split.
  - unfold update_processing_status, doc_set. cbv [bind extern final].
    destruct (oracle w (tick w) EvFirestoreClient); cbn; [|reflexivity].
    match goal with
    | |- context [match oracle ?a ?b ?c with _ => _ end] =>
        destruct (oracle a b c); cbn
    end; [|reflexivity].
    now rewrite lookup_insert_ne.
  - unfold check_processing_status, same_store. cbv [bind extern final].
    destruct (oracle w (tick w) EvFirestoreClient); cbn; [|reflexivity].
    match goal with
    | |- context [match oracle ?a ?b ?c with _ => _ end] =>
        destruct (oracle a b c); reflexivity
    end.
Qed.

Lemma status_calls_are_isolated_witness :
  let w := final (update_processing_status "222" "processed" two_items) in
  "111" <> "222"
  /\ isbn_processing_status (final (update_processing_status "111" "failed" w))
     !! "222" = isbn_processing_status w !! "222"
  /\ same_store w (final (check_processing_status "111" w)).
Proof.
  intros w. assert (Hne : "111" <> "222") by discriminate.
  split; [exact Hne|].
  exact (status_calls_are_isolated "111" "222" "failed" w Hne).
Defined.

(** ** What leaves the status collection alone *)

Lemma same_store_refl w : same_store w w.
Proof. reflexivity. Qed.

Lemma same_store_trans w1 w2 w3 :
  same_store w1 w2 -> same_store w2 w3 -> same_store w1 w3.
Proof. unfold same_store. congruence. Qed.

Lemma keeps_ret {A} (a : A) : preserves same_store (ret a).
Proof. intros w. apply same_store_refl. Qed.

Lemma keeps_raise {A} e : preserves same_store (@raise A e).
Proof. intros w. apply same_store_refl. Qed.

Lemma keeps_bind {A B} (m : M A) (k : A -> M B) :
  preserves same_store m -> (forall a, preserves same_store (k a)) ->
  preserves same_store (bind m k).
Proof.
  intros Hm Hk w. specialize (Hm w). unfold bind, final in *.
  destruct (m w) as [[a|e] w1]; cbn in *; [|exact Hm].
  eapply same_store_trans; [exact Hm|]. exact (Hk a w1).
Qed.

Lemma keeps_try_except {A} (body : M A) handler :
  preserves same_store body -> (forall e, preserves same_store (handler e)) ->
  preserves same_store (try_except body handler).
Proof.
  intros Hm Hk w. specialize (Hm w). unfold try_except, final in *.
  destruct (body w) as [[a|e] w1]; cbn in *; [exact Hm|].
  eapply same_store_trans; [exact Hm|]. exact (Hk e w1).
Qed.

Lemma keeps_try_finally {A} (body : M A) fin :
  preserves same_store body -> preserves same_store fin ->
  preserves same_store (try_finally body fin).
Proof.
  intros Hm Hf w. specialize (Hm w). unfold try_finally, final in *.
  destruct (body w) as [r w1]; cbn in *. specialize (Hf w1).
  destruct (fin w1) as [[u|e] w2]; cbn in *;
    eapply same_store_trans; eauto.
Qed.

Lemma keeps_extern ev : preserves same_store (extern ev).
Proof.
  intros w. unfold extern, final. destruct (oracle w (tick w) ev); reflexivity.
Qed.

Lemma keeps_sleep n : preserves same_store (sleep n).
Proof. intros w. reflexivity. Qed.

Lemma keeps_logging l msg : preserves same_store (logging l msg).
Proof. intros w. reflexivity. Qed.

Lemma keeps_getitem {A} (xs : list A) i : preserves same_store (getitem xs i).
Proof.
  unfold getitem. destruct (nth_error xs i); [apply keeps_ret|apply keeps_raise].
Qed.

Ltac keeps_step :=
  match goal with
  | |- preserves _ (ret _) => apply keeps_ret
  | |- preserves _ (raise _) => apply keeps_raise
  | |- preserves _ (logging _ _) => apply keeps_logging
  | |- preserves _ (getitem _ _) => apply keeps_getitem
  | |- preserves _ (sleep _) => apply keeps_sleep
  | |- preserves _ (extern _) => apply keeps_extern
  | |- preserves _ (bind _ _) => apply keeps_bind; [|intros ?]
  | |- preserves _ (try_except _ _) => apply keeps_try_except; [|intros ?]
  | |- preserves _ (try_finally _ _) => apply keeps_try_finally
  | |- preserves _ (if ?b then _ else _) => destruct b
  | |- preserves _ (match ?x with _ => _ end) => destruct x
  end.

Lemma keeps_fetch_bookscouter_data d isbn :
  preserves same_store (fetch_bookscouter_data d isbn).
Proof.
  unfold fetch_bookscouter_data, fetch_bookscouter_body, price_text,
    parse_price, fetch_bookscouter_handlers, driver_get, wait_until,
    element_text.
  repeat keeps_step.
Qed.

Lemma keeps_fetch_restricted_inventory_data d isbn :
  preserves same_store (fetch_restricted_inventory_data d isbn).
Proof.
  unfold fetch_restricted_inventory_data, fetch_restricted_inventory_body,
    search_isbn, not_profitable_probe, profit_text, parse_profit,
    fetch_restricted_inventory_handlers, driver_get, wait_until,
    element_text, element_clear, element_send_keys, element_click.
  repeat keeps_step.
Qed.

Lemma keeps_process_isbn isbn row : preserves same_store (process_isbn isbn row).
Proof.
  unfold process_isbn, process_isbn_with, init_driver.
  apply keeps_bind.
  - apply keeps_bind.
    + intros w. unfold webdriver_Chrome, bind, extern, final.
      destruct (oracle w (tick w) _); reflexivity.
    + intros d. unfold set_page_load_timeout. repeat keeps_step.
  - intros d. apply keeps_try_finally.
    + unfold extract_both. apply keeps_bind.
      * apply keeps_fetch_bookscouter_data.
      * intros a. apply keeps_bind; [|intros b; apply keeps_ret].
        apply keeps_fetch_restricted_inventory_data.
    + unfold driver_quit. repeat keeps_step.
Qed.

(** X16.  Whatever the environment answers, processing one item never
    changes the status collection: neither the extractions nor the
    session calls of [process_isbn] write a status. *)
Theorem processing_leaves_statuses (isbn : string) (row_index : pyval)
    (w : World) :
  same_store w (final (process_isbn isbn row_index w))
  /\ same_store w (final (fetch_bookscouter_data (sessions w) isbn w))
  /\ same_store w (final (fetch_restricted_inventory_data (sessions w) isbn w))
  /\ List.filter store_event (events (final (process_isbn isbn row_index w)))
     = List.filter store_event (events w).
Proof.
  split; [apply keeps_process_isbn|].
  split; [apply keeps_fetch_bookscouter_data|].
  split; [apply keeps_fetch_restricted_inventory_data|].
  destruct (emits_process_isbn isbn row_index w) as [_ (t & -> & Ft)].
  rewrite List.filter_app.
  assert (E : List.filter store_event t = []).
  { clear -Ft. induction t as [|ev t IH]; [reflexivity|].
    cbn in Ft. apply andb_true_iff in Ft as [Hev Ht]. cbn.
    rewrite (IH Ht). destruct ev; cbn in *; congruence. }
  rewrite E. apply app_nil_r.
Qed.

(** ** Statuses written by the loop of [process_isbn_batch] *)

Lemma loop_returns entries :
  forall acc w results w',
    process_isbn_batch_loop entries acc w = (Ok results, w') ->
    exists rs,
      results = (acc ++ rs)%list
      /\ Forall2 (fun x r => unpacked x = Some (ISBN r, RowIndex r))
           entries rs.
Proof.
  induction entries as [|x rest IH]; intros acc w results w'; simpl.
  - intros H. inversion H; subst. exists []. split; [|constructor].
    symmetry. apply app_nil_r.
  - pose proof (unpack_unpacked x) as Hu.
    destruct (unpacked x) as [p|] eqn:Hp.
    + rewrite Hu. unfold bind at 1. unfold ret at 1. unfold bind at 1.
      destruct (process_isbn (fst p) (snd p) w) as [[r|e] w1] eqn:E1;
        [|discriminate].
      unfold bind at 1.
      destruct (update_processing_status (fst p) "processed" w1)
        as [[u|e] w2]; [|discriminate].
      intros H. destruct (IH _ _ _ _ H) as (rs & -> & Hrs).
      exists (r :: rs). split; [now rewrite <- app_assoc|].
      constructor; [|exact Hrs].
      destruct (process_isbn_value _ _ _ _ _ E1) as (-> & -> & _).
      now destruct p.
    + destruct Hu as [msg ->]. discriminate.
Qed.

Lemma loop_step_marks x rest acc w p :
  reliable lifecycle_event (oracle w) ->
  reliable store_event (oracle w) ->
  unpacked x = Some p ->
  exists result w1 t,
    process_isbn_batch_loop (x :: rest) acc w
    = process_isbn_batch_loop rest (acc ++ [result])%list w1
    /\ unpacked x = Some (ISBN result, RowIndex result)
    /\ oracle w1 = oracle w
    /\ isbn_processing_status w1
       = <[ISBN result := {| status := "processed"; timestamp := t |}]>
           (isbn_processing_status w).
Proof.
  intros Hl Hs Hp.
  pose proof (unpack_unpacked x) as Hu. rewrite Hp in Hu.
  destruct (process_isbn_reliable (fst p) (snd p) w Hl)
    as (a & b & w1 & t & E1 & Ho1 & _).
  pose proof (keeps_process_isbn (fst p) (snd p) w) as Hk.
  rewrite E1 in Hk. unfold same_store in Hk. cbn in Hk.
  assert (Hs1 : reliable store_event (oracle w1)) by now rewrite Ho1.
  pose proof (update_processing_status_reliable (fst p) "processed" w1 Hs1)
    as E2.
  eexists _, _, _. split.
  { simpl. rewrite Hu. unfold bind at 1. unfold ret at 1.
    rewrite (bind_ok _ _ _ _ _ E1), (bind_ok _ _ _ _ _ E2). reflexivity. }
  cbn. rewrite Hk. repeat split; auto. rewrite Hp. now destruct p.
Qed.

Lemma marked_processed_step isbn t isbns (m m1 m' : gmap string StatusRecord) :
  m1 = <[isbn := {| status := "processed"; timestamp := t |}]> m ->
  marked_processed isbns m1 m' ->
  marked_processed (isbn :: isbns) m m'.
Proof.
  intros -> [Hin Hout]. split.
  - intros k Hk. destruct (in_dec string_dec k isbns) as [Hi|Hni].
    + now apply Hin.
    + destruct Hk as [<-|Hk]; [|contradiction].
      rewrite (Hout _ Hni), lookup_insert_eq. reflexivity.
  - intros k Hk. rewrite Hout by (intros Hi; apply Hk; now right).
    apply lookup_insert_ne. intros <-. apply Hk. now left.
Qed.

Lemma loop_prefix_marks done :
  forall rest acc w,
    reliable lifecycle_event (oracle w) ->
    reliable store_event (oracle w) ->
    Forall (fun x => is_Some (unpacked x)) done ->
    exists results w1,
      process_isbn_batch_loop (done ++ rest) acc w
      = process_isbn_batch_loop rest (acc ++ results)%list w1
      /\ Forall2 (fun x r => unpacked x = Some (ISBN r, RowIndex r))
           done results
      /\ oracle w1 = oracle w
      /\ marked_processed (map ISBN results)
           (isbn_processing_status w) (isbn_processing_status w1).
Proof.
  induction done as [|x done IH]; intros rest acc w Hl Hs Hd.
  - exists [], w. simpl. rewrite app_nil_r.
    repeat split; auto; try constructor. intros k [].
  - inversion Hd as [|? ? [p Hp] Hd']; subst.
    destruct (loop_step_marks x (done ++ rest) acc w p Hl Hs Hp)
      as (r & w1 & t & E & Hx & Ho & Hm).
    destruct (IH rest (acc ++ [r])%list w1)
      as (results & w2 & E2 & Hres & Ho2 & Hm2); auto.
    { now rewrite Ho. } { now rewrite Ho. }
    exists (r :: results), w2. split.
    { change ((x :: done) ++ rest)%list with (x :: (done ++ rest))%list.
      rewrite E, E2. now rewrite <- app_assoc. }
    split; [constructor; assumption|]. split; [congruence|].
    simpl map. exact (marked_processed_step _ _ _ _ _ _ Hm Hm2).
Qed.

(** X17.  In an environment where browser sessions and the status store
    work, after [process_isbn_batch] on a list whose entries all unpack,
    the collection holds the status [processed] for the ISBN of every
    result, and the documents of all other ISBNs are as before. *)
Theorem batch_marks_every_item (isbn_batch : list entry) (w : World) :
  reliable lifecycle_event (oracle w) ->
  reliable store_event (oracle w) ->
  Forall (fun x => is_Some (unpacked x)) isbn_batch ->
  exists results w',
    process_isbn_batch isbn_batch w = (Ok results, w')
    /\ Forall2 (fun x r => unpacked x = Some (ISBN r, RowIndex r))
         isbn_batch results
    /\ marked_processed (map ISBN results)
         (isbn_processing_status w) (isbn_processing_status w').
Proof.
  intros Hl Hs Hu.
  destruct (loop_prefix_marks isbn_batch [] [] w Hl Hs Hu)
    as (results & w' & E & Hres & _ & Hm).
  exists results, w'. unfold process_isbn_batch.
  rewrite app_nil_r in E. rewrite E. simpl. auto.
Qed.

Lemma batch_marks_every_item_witness :
  let isbn_batch := [EntryPair "111" (VInt 2); EntryPair "222" (VInt 3)] in
  reliable lifecycle_event (oracle two_items)
  /\ reliable store_event (oracle two_items)
  /\ Forall (fun x => is_Some (unpacked x)) isbn_batch
  /\ exists results w',
      process_isbn_batch isbn_batch two_items = (Ok results, w')
      /\ Forall2 (fun x r => unpacked x = Some (ISBN r, RowIndex r))
           isbn_batch results
      /\ marked_processed (map ISBN results)
           (isbn_processing_status two_items) (isbn_processing_status w').
Proof.
  intros isbn_batch.
  assert (Hu : Forall (fun x => is_Some (unpacked x)) isbn_batch).
  { repeat constructor; simpl; eauto. }
  split; [exact two_items_sessions_reliable|].
  split; [exact two_items_store_reliable|]. split; [exact Hu|].
  exact (batch_marks_every_item isbn_batch two_items
           two_items_sessions_reliable two_items_store_reliable Hu).
Defined.

(** ** The queue path, beyond the unpacking error *)

Lemma Forall2_in_left {A B} (P : A -> B -> Prop) l k x :
  Forall2 P l k -> In x l -> exists y, In y k /\ P x y.
Proof.
  induction 1 as [|a b l k Hab _ IH]; intros Hin; [inversion Hin|].
  destruct Hin as [<-|Hin].
  - exists b. split; [now left|exact Hab].
  - destruct (IH Hin) as (y & Hy & Hp). exists y. split; [now right|exact Hp].
Qed.

Lemma batch_events_no_cell_write t :
  forallb batch_event t = true -> List.filter cell_write t = [].
Proof.
  induction t as [|ev t IH]; [reflexivity|]. cbn. intros H.
  apply andb_true_iff in H as [Hev Ht]. rewrite (IH Ht).
  unfold batch_event in Hev. destruct ev; cbn in *; congruence.
Qed.

Lemma batch_events_no_ack t :
  forallb batch_event t = true -> List.filter ack_event t = [].
Proof.
  induction t as [|ev t IH]; [reflexivity|]. cbn. intros H.
  apply andb_true_iff in H as [Hev Ht]. rewrite (IH Ht).
  unfold batch_event in Hev. destruct ev; cbn in *; congruence.
Qed.

(** X18.  Statuses survive the unpacking error.  In an environment where
    browser sessions and the status store work, when tokens of length two
    precede a token of another length, the queue path raises the
    unpacking error and yet leaves the status [processed] in the
    collection for the ISBN of each of those tokens, although no cell of
    the sheet was written for any of them. *)
Theorem statuses_survive_the_unpacking_error (message : Message) (w : World)
    (good : list string) (bad : string) (rest : list string) :
  reliable lifecycle_event (oracle w) ->
  reliable store_event (oracle w) ->
  PyStr.split "," (data message) = (good ++ bad :: rest)%list ->
  Forall (fun token => String.length token = 2) good ->
  String.length bad <> 2 ->
  exists msg w',
    process_pubsub_message message w = (Raise (Exn ValueError msg), w')
    /\ Forall (fun token =>
                 exists p, unpacked (EntryStr token) = Some p
                           /\ status <$> (isbn_processing_status w' !! fst p)
                              = Some "processed") good
    /\ List.filter cell_write (events w') = List.filter cell_write (events w).
Proof.
  intros Hl Hs Hsplit Hgood Hbad.
  pose proof (unpacked_other_length bad Hbad) as Hnone.
  unfold process_pubsub_message, process_isbn_batch.
  rewrite Hsplit, map_app. simpl map.
  destruct (loop_prefix_marks (map EntryStr good)
              (EntryStr bad :: map EntryStr rest) [] w Hl Hs)
    as (results & w1 & E & Hres & _ & [Hin _]).
  { apply List.Forall_forall. intros x Hx.
    apply in_map_iff in Hx as (token & <- & Hi).
    apply unpacked_length_two.
    rewrite List.Forall_forall in Hgood. now apply Hgood. }
  destruct (loop_unfit (EntryStr bad) (map EntryStr rest)
              ([] ++ results)%list w1 Hnone) as [msg E'].
  rewrite <- E in E'.
  destruct (emits_process_isbn_batch_loop
              (map EntryStr good ++ EntryStr bad :: map EntryStr rest) [] w)
    as [_ (t & Ht & Ft)].
  rewrite E' in Ht. cbn in Ht.
  exists msg, w1. rewrite (bind_raise _ _ _ _ _ E').
  split; [reflexivity|]. split.
  - apply List.Forall_forall. intros token Hi.
    destruct (Forall2_in_left _ _ _ (EntryStr token) Hres) as (r & Hr & Hp).
    { now apply in_map. }
    exists (ISBN r, RowIndex r). split; [exact Hp|]. cbn.
    apply Hin. now apply in_map.
  - rewrite Ht, List.filter_app, (batch_events_no_cell_write t Ft).
    apply app_nil_r.
Qed.

Lemma statuses_survive_the_unpacking_error_witness :
  let w := two_items in
  reliable lifecycle_event (oracle w)
  /\ reliable store_event (oracle w)
  /\ PyStr.split "," (data short_token_first)
     = (["ab"] ++ ["9780131103627"])%list
  /\ Forall (fun token => String.length token = 2) ["ab"]
  /\ String.length "9780131103627" <> 2
  /\ exists msg w',
      process_pubsub_message short_token_first w
      = (Raise (Exn ValueError msg), w')
      /\ Forall (fun token =>
                   exists p, unpacked (EntryStr token) = Some p
                             /\ status <$> (isbn_processing_status w' !! fst p)
                                = Some "processed") ["ab"]
      /\ List.filter cell_write (events w') = List.filter cell_write (events w).
Proof.
  intros w.
  assert (H1 : PyStr.split "," (data short_token_first)
               = (["ab"] ++ ["9780131103627"])%list) by reflexivity.
  assert (H2 : Forall (fun token => String.length token = 2) ["ab"])
    by (repeat constructor).
  assert (H3 : String.length "9780131103627" <> 2) by (simpl; lia).
  split; [exact two_items_sessions_reliable|].
  split; [exact two_items_store_reliable|].
  split; [exact H1|]. split; [exact H2|]. split; [exact H3|].
  exact (statuses_survive_the_unpacking_error short_token_first w
           ["ab"] "9780131103627" [] two_items_sessions_reliable
           two_items_store_reliable H1 H2 H3).
Defined.

Lemma update_google_sheet_reliable results w :
  reliable cell_write (oracle w) ->
  exists w',
    update_google_sheet results w = (Ok tt, w')
    /\ events w' = (events w ++ sheet_writes results)%list
    /\ oracle w' = oracle w.
Proof.
  intros Hr. unfold update_google_sheet, bind.
  destruct (update_google_sheet_loop_calls results w)
    as (n & He & _ & _ & Ho & Hout).
  unfold final, outcome in *.
  destruct (update_google_sheet_loop results w) as [[[]|e] w1]; cbn in *.
  - subst n. rewrite firstn_all in He.
    eexists. split; [reflexivity|]. cbn. auto.
  - destruct Hout as (_ & k & ev & Hc & Hk).
    destruct (Hr k ev Hc) as [text Ht]. congruence.
Qed.

(** X19.  The queue path from end to end.  When every token of the
    payload has length two and browser sessions, status store, sheet and
    acknowledgement all work, [process_pubsub_message] returns, and its
    calls are, in this order: one block per token (the processing of the
    item, then its status write), the two cell writes of each result,
    and the acknowledgement of the message as the last call.  Each result
    has the first character of its token as ISBN and the second as row
    index. *)
Theorem queue_path_end_to_end (message : Message) (w : World) :
  reliable lifecycle_event (oracle w) ->
  reliable store_event (oracle w) ->
  reliable cell_write (oracle w) ->
  reliable ack_event (oracle w) ->
  Forall (fun token => String.length token = 2)
    (PyStr.split "," (data message)) ->
  exists results w' blocks,
    process_pubsub_message message w = (Ok tt, w')
    /\ events w'
       = (events w ++ concat blocks ++ sheet_writes results ++ [EvAck])%list
    /\ Forall2 (fun token block => entry_block (EntryStr token) block)
         (PyStr.split "," (data message)) blocks
    /\ Forall2 (fun token r =>
                  unpacked (EntryStr token) = Some (ISBN r, RowIndex r))
         (PyStr.split "," (data message)) results.
Proof.
  intros Hl Hs Hc Ha Htok.
  unfold process_pubsub_message, process_isbn_batch.
  destruct (loop_prefix (map EntryStr (PyStr.split "," (data message)))
              [] [] w Hl Hs)
    as (results & w1 & blocks & E & Hres & Ho & He & Hbs).
  { apply List.Forall_forall. intros x Hx.
    apply in_map_iff in Hx as (token & <- & Hi).
    apply unpacked_length_two.
    rewrite List.Forall_forall in Htok. now apply Htok. }
  rewrite app_nil_r in E. simpl in E.
  destruct (update_google_sheet_reliable results w1) as (w2 & E2 & He2 & Ho2).
  { now rewrite Ho. }
  destruct (Ha (tick w2) EvAck eq_refl) as [text Hack].
  assert (Hack' : oracle w2 (tick w2) EvAck = Returns text)
    by (rewrite Ho2, Ho; exact Hack).
  assert (Em : message_ack w2 = (Ok tt, called EvAck w2)).
  { unfold message_ack, bind, extern, ret. now rewrite Hack'. }
  exists results, (called EvAck w2), blocks.
  rewrite (bind_ok _ _ _ _ _ E), (bind_ok _ _ _ _ _ E2), Em.
  split; [reflexivity|]. split.
  - cbn. rewrite He2, He. now rewrite <- !app_assoc.
  - split.
    + exact (Forall2_map_left _ EntryStr _ _ Hbs).
    + exact (Forall2_map_left
               (fun x r => unpacked x = Some (ISBN r, RowIndex r))
               EntryStr _ _ Hres).
Qed.

Lemma script_nil_reliable kind : reliable kind (oracle (start (script []))).
Proof. intros n ev _. exists EmptyString. now destruct n. Qed.

Lemma queue_path_end_to_end_witness :
  let w := start (script []) in
  reliable lifecycle_event (oracle w)
  /\ reliable store_event (oracle w)
  /\ reliable cell_write (oracle w)
  /\ reliable ack_event (oracle w)
  /\ Forall (fun token => String.length token = 2)
       (PyStr.split "," (data short_tokens))
  /\ exists results w' blocks,
      process_pubsub_message short_tokens w = (Ok tt, w')
      /\ events w'
         = (events w ++ concat blocks ++ sheet_writes results ++ [EvAck])%list
      /\ Forall2 (fun token block => entry_block (EntryStr token) block)
           (PyStr.split "," (data short_tokens)) blocks
      /\ Forall2 (fun token r =>
                    unpacked (EntryStr token) = Some (ISBN r, RowIndex r))
           (PyStr.split "," (data short_tokens)) results.
Proof.
  intros w.
  assert (Ht : Forall (fun token => String.length token = 2)
                 (PyStr.split "," (data short_tokens))).
  { vm_compute. repeat constructor. }
  split; [apply script_nil_reliable|]. split; [apply script_nil_reliable|].
  split; [apply script_nil_reliable|]. split; [apply script_nil_reliable|].
  split; [exact Ht|].
  exact (queue_path_end_to_end short_tokens w
           (script_nil_reliable _) (script_nil_reliable _)
           (script_nil_reliable _) (script_nil_reliable _) Ht).
Defined.

Lemma cell_writes_only results :
  forallb cell_write (sheet_writes results) = true.
Proof.
  unfold sheet_writes. induction results as [|r rest IH]; [reflexivity|].
  cbn [flat_map]. now rewrite forallb_app, IH.
Qed.

Lemma forallb_firstn {A} (p : A -> bool) n l :
  forallb p l = true -> forallb p (firstn n l) = true.
Proof.
  revert n. induction l as [|x l IH]; intros [|n] H; cbn; auto.
  cbn in H. apply andb_true_iff in H as [Hx Hl]. now rewrite Hx, IH.
Qed.

Lemma cell_writes_filter t :
  forallb cell_write t = true ->
  List.filter ack_event t = [] /\ List.filter cell_write t = t.
Proof.
  induction t as [|ev t IH]; [auto|]. cbn. intros H.
  apply andb_true_iff in H as [Hev Ht]. destruct (IH Ht) as [Ha Hc].
  rewrite Hev, Ha, Hc. destruct ev; try discriminate Hev. auto.
Qed.

Lemma queue_rows results tokens :
  Forall2 (fun token r =>
             unpacked (EntryStr token) = Some (ISBN r, RowIndex r))
    tokens results ->
  forallb queue_cell (sheet_writes results) = true.
Proof.
  unfold sheet_writes.
  induction 1 as [|token r tokens results H _ IH]; [reflexivity|].
  cbn [flat_map]. rewrite forallb_app, IH, andb_true_r.
  destruct token as [|a [|b [|c rest]]]; try discriminate H.
  cbn in H. injection H as Hi Hr. cbn [forallb]. rewrite <- Hr.
  reflexivity.
Qed.

Lemma batch_events_queue_cell t :
  forallb batch_event t = true -> forallb queue_cell t = true.
Proof.
  rewrite !forallb_forall. intros H ev Hev. specialize (H ev Hev).
  unfold batch_event in H. destruct ev; cbn in *; congruence.
Qed.

(** The calls of the queue path, by the place where it stops. *)
Lemma process_pubsub_message_calls message w :
  let tokens := PyStr.split "," (data message) in
  let r := process_pubsub_message message w in
  exists t results n,
    forallb batch_event t = true
    /\ forallb queue_cell (sheet_writes results) = true
    /\ ((events (final r)
         = (events w ++ t ++ firstn n (sheet_writes results))%list
         /\ exists e, outcome r = Raise e)
        \/ (events (final r)
            = (events w ++ t ++ sheet_writes results ++ [EvAck])%list
            /\ length results = length tokens)).
Proof.
  cbv zeta. unfold process_pubsub_message, process_isbn_batch.
  set (entries := map EntryStr (PyStr.split "," (data message))).
  destruct (emits_process_isbn_batch_loop entries [] w) as [_ (t & Ht & Ft)].
  destruct (process_isbn_batch_loop entries [] w) as [[results|e] w1] eqn:E;
    cbn in Ht.
  - destruct (loop_returns _ _ _ _ _ E) as (rs & Hrs & Hf).
    cbn in Hrs. subst rs. subst entries.
    apply Forall2_map_left in Hf.
    pose proof (queue_rows _ _ Hf) as Hq.
    pose proof (Forall2_length _ _ _ Hf) as Hlen.
    rewrite (bind_ok _ _ _ _ _ E).
    destruct (update_google_sheet_loop_calls results w1)
      as (n & He & _ & _ & _ & Hout).
    destruct (update_google_sheet_loop results w1) as [[u|e] w2] eqn:E2;
      unfold final, outcome in He, Hout; cbn [fst snd] in He, Hout.
    + subst n. rewrite firstn_all in He.
      set (ws := final (logging INFO (snd (sheet_log results)) w2)).
      assert (Es : update_google_sheet results w1 = (Ok tt, ws)).
      { unfold update_google_sheet. now rewrite (bind_ok _ _ _ _ _ E2). }
      rewrite (bind_ok _ _ _ _ _ Es).
      exists t, results, 0. split; [exact Ft|]. split; [exact Hq|]. right.
      split; [|now symmetry].
      assert (Ea : events (final (message_ack ws))
                   = (events w2 ++ [EvAck])%list).
      { unfold message_ack, bind, extern, ret, final.
        destruct (oracle ws (tick ws) EvAck); reflexivity. }
      rewrite Ea, He, Ht. now rewrite <- !app_assoc.
    + assert (Es : update_google_sheet results w1 = (Raise e, w2)).
      { unfold update_google_sheet. now rewrite (bind_raise _ _ _ _ _ E2). }
      exists t, results, n. split; [exact Ft|]. split; [exact Hq|]. left.
      rewrite (bind_raise _ _ _ _ _ Es). cbn. split; [|eauto].
      rewrite He, Ht. now rewrite <- !app_assoc.
  - exists t, [], 0. split; [exact Ft|]. split; [reflexivity|]. left.
    rewrite (bind_raise _ _ _ _ _ E). cbn. rewrite app_nil_r. eauto.
Qed.

(** X20.  The message is acknowledged at most once, as the last call,
    and only after the results of every token were written to the sheet.
    Whatever the environment answers, either the run of
    [process_pubsub_message] raises without having called [ack], or
    [ack] is its last call, is its only acknowledgement and is preceded
    by exactly two cell writes per token of the payload; a run that
    returns is of the second kind. *)
Theorem ack_is_last_and_after_the_sheet (message : Message) (w : World) :
  let tokens := PyStr.split "," (data message) in
  let r := process_pubsub_message message w in
  exists t,
    List.filter ack_event t = []
    /\ ((events (final r) = (events w ++ t)%list
         /\ exists e, outcome r = Raise e)
        \/ (events (final r) = (events w ++ t ++ [EvAck])%list
            /\ length (List.filter cell_write t) = 2 * length tokens)).
Proof.
  cbv zeta.
  destruct (process_pubsub_message_calls message w)
    as (t & results & n & Ft & _ & H).
  pose proof (cell_writes_only results) as Hc.
  destruct H as [[He Ho] | [He Hlen]].
  - exists (t ++ firstn n (sheet_writes results))%list. split.
    + rewrite List.filter_app, (batch_events_no_ack t Ft).
      now destruct (cell_writes_filter _ (forallb_firstn _ n _ Hc)) as [-> _].
    + left. split; [|exact Ho]. exact He.
  - exists (t ++ sheet_writes results)%list.
    destruct (cell_writes_filter _ Hc) as [Ha Hw]. split.
    + now rewrite List.filter_app, (batch_events_no_ack t Ft), Ha.
    + right. split; [rewrite He; now rewrite <- !app_assoc|].
      rewrite List.filter_app, (batch_events_no_cell_write t Ft), Hw.
      cbn [app]. now rewrite sheet_writes_length, Hlen.
Qed.

(** X21.  On the queue path the row of every cell written is a text of
    one character, never an integer: it is the second character of a
    token, and the column is 5 or 6.  This holds whatever the
    environment answers and wherever the run stops. *)
Theorem queue_path_writes_text_rows (message : Message) (w : World) :
  exists t,
    events (final (process_pubsub_message message w)) = (events w ++ t)%list
    /\ forallb queue_cell t = true.
Proof.
  destruct (process_pubsub_message_calls message w)
    as (t & results & n & Ft & Hq & H).
  pose proof (batch_events_queue_cell t Ft) as Hb.
  destruct H as [[He _] | [He _]].
  - exists (t ++ firstn n (sheet_writes results))%list.
    split; [exact He|]. rewrite forallb_app, Hb.
    now rewrite (forallb_firstn _ n _ Hq).
  - exists (t ++ sheet_writes results ++ [EvAck])%list.
    split; [exact He|]. now rewrite !forallb_app, Hb, Hq.
Qed.

(** The cells written for the payload [a2,b3,c4]. *)
Example short_tokens_rows :
  List.filter cell_write
    (events (final (process_pubsub_message short_tokens (start (script [])))))
  = [EvUpdateCell (VStr "2") 5 "N/A"; EvUpdateCell (VStr "2") 6 "N/A";
     EvUpdateCell (VStr "3") 5 "N/A"; EvUpdateCell (VStr "3") 6 "N/A";
     EvUpdateCell (VStr "4") 5 "N/A"; EvUpdateCell (VStr "4") 6 "N/A"].
Proof. vm_compute. reflexivity. Qed.

(** ** The tokens of a payload *)

Lemma split_nonempty sep s : PyStr.split sep s <> [].
Proof. destruct (split_head sep s) as [fields ->]. discriminate. Qed.

(** X22.  Splitting loses nothing.  The fields [split] yields, joined
    again with the separator, are the text that was split; there is one
    field more than there are separators in the text, so at least one
    even for the empty text; and no field contains the separator.  For
    line 160: the tokens of a payload are its maximal comma-free
    pieces. *)
Theorem split_then_join (sep : ascii) (s : string) :
  join_with sep (PyStr.split sep s) = s
  /\ length (PyStr.split sep s) = S (occurrences sep s)
  /\ Forall (fun field =>
               PyStr.contains (String sep EmptyString) field = false)
       (PyStr.split sep s).
Proof.
  induction s as [|c s (Hj & Hl & Hf)]; cbn [PyStr.split occurrences].
  - repeat split. repeat constructor.
  - pose proof (split_nonempty sep s) as Hne. revert Hj Hl Hf Hne.
    destruct (PyStr.split sep s) as [|f fs]; intros Hj Hl Hf Hne;
      [contradiction|].
    inversion Hf as [|? ? Hf1 Hf2]. clear Hf.
    destruct (Ascii.eqb c sep) eqn:Hc.
    + apply Ascii.eqb_eq in Hc. rewrite Hc. split; [|split].
      * change (join_with sep (EmptyString :: f :: fs))
          with (EmptyString ++ String sep (join_with sep (f :: fs))).
        rewrite Hj. reflexivity.
      * cbn [length] in *. lia.
      * constructor; [reflexivity|]. now constructor.
    + split; [|split].
      * destruct fs; cbn [join_with] in *; rewrite <- Hj; reflexivity.
      * cbn [length] in *. lia.
      * constructor; [|exact Hf2]. now rewrite contains_char_cons, Hc, Hf1.
Qed.

(** ** The batch coordinator, whenever it returns *)

Lemma executor_map_returns (isbn_data : list (string * pyval)) :
  forall w results w',
    executor_map (fun x => process_isbn (fst x) (snd x)) isbn_data w
    = (Ok results, w') ->
    Forall2 (fun x r =>
               ISBN r = fst x /\ RowIndex r = snd x
               /\ (BookScouter r = NA \/ clean_price (BookScouter r))
               /\ (RestrictedInventory r = NA
                   \/ RestrictedInventory r = NOT_PROFITABLE
                   \/ clean_profit (RestrictedInventory r)))
      isbn_data results.
Proof.
  induction isbn_data as [|x rest IH]; intros w results w'; cbn.
  - intros H. inversion H. constructor.
  - unfold bind at 1.
    destruct (process_isbn (fst x) (snd x) w) as [[r|e] w1] eqn:E1;
      [|discriminate].
    unfold bind at 1.
    destruct (executor_map _ rest w1) as [[rs|e] w2] eqn:E2; [|discriminate].
    intros H. inversion H; subst. constructor.
    + exact (process_isbn_value _ _ _ _ _ E1).
    + exact (IH _ _ _ E2).
Qed.

(** X23.  Whatever the environment answers, whenever [process_batch]
    returns it returns one result per item, in the order of the items,
    each with the ISBN and the row index of its item and with values
    that are sentinels or clean; given no item it returns no result and
    makes no call. *)
Theorem batch_returns_one_result_per_item
    (isbn_data : list (string * pyval)) (w w' : World)
    (results : list ProcessingResult) :
  process_batch isbn_data w = (Ok results, w') ->
  Forall2 (fun x r =>
             ISBN r = fst x /\ RowIndex r = snd x
             /\ (BookScouter r = NA \/ clean_price (BookScouter r))
             /\ (RestrictedInventory r = NA
                 \/ RestrictedInventory r = NOT_PROFITABLE
                 \/ clean_profit (RestrictedInventory r)))
    isbn_data results
  /\ length results = length isbn_data
  /\ process_batch [] w = (Ok [], w).
Proof.
  unfold process_batch, bind.
  destruct (executor_map _ isbn_data w) as [[rs|e] w1] eqn:E; [|discriminate].
  intros H. inversion H; subst.
  pose proof (executor_map_returns _ _ _ _ E) as Hf.
  split; [exact Hf|]. split; [|reflexivity].
  symmetry. exact (Forall2_length _ _ _ Hf).
Qed.

Lemma batch_returns_one_result_per_item_witness :
  let isbn_data := [("111", VInt 2); ("222", VInt 3)] in
  let results :=
    [{| ISBN := "111"; BookScouter := "N/A"; RestrictedInventory := "N/A";
        RowIndex := VInt 2 |};
     {| ISBN := "222"; BookScouter := "12.50";
        RestrictedInventory := "Not profitable"; RowIndex := VInt 3 |}] in
  let w' := final (process_batch isbn_data two_items) in
  process_batch isbn_data two_items = (Ok results, w')
  /\ length results = length isbn_data.
Proof.
  intros isbn_data results w'.
  assert (E : process_batch isbn_data two_items = (Ok results, w'))
    by (vm_compute; reflexivity).
  split; [exact E|].
  exact (proj1 (proj2 (batch_returns_one_result_per_item isbn_data
                         two_items w' results E))).
Defined.
